(** * Exam timetabling through Z3: a shallow embedding of [main.py]

    The program reads an instance (counts, room capacities and a list of
    (exam, student) registrations), states the timetabling constraints as
    quantified formulas over the uninterpreted functions [ExamRoom],
    [ExamTime] and [ExamStudent], and prints what the solver answers.

    The embedding follows the source function by function:
    - [read_file]: the two regular expressions, the reading loop and the
      counting loop that fills [student_exam_capacity];
    - [solve]: the assertions pushed with [s.add], in the order of the
      source, as propositions over an interpretation of the declared
      functions; the call [s.check()] and the model it returns are the
      answers of the solver, a variable of the section that defines [solve].

    Python integers are [Z]; Python lists are [list] with the indexing rule of
    Python written out in [py_index]; exceptions are the [Raise] results. *)

From Stdlib Require Import ZArith List Lia Bool Ascii String DecimalString DecimalNat.
From stdpp Require Import base numbers list.

Open Scope Z_scope.

(** ** Exceptions *)

(** The two exceptions that the program can raise by itself: the generic
    [Exception] of the reader, with its message, and the [IndexError] of an
    out-of-range list subscript. *)
Inductive exn : Type :=
  | Exception (msg : string)
  | IndexError.

Inductive result (A : Type) : Type :=
  | Ok (a : A)
  | Raise (e : exn).
Arguments Ok {A} a.
Arguments Raise {A} e.

#[global] Instance result_ret : MRet result := fun _ a => Ok a.
#[global] Instance result_bind : MBind result := fun _ _ f r =>
  match r with
  | Ok a => f a
  | Raise e => Raise e
  end.

(** ** Python lists *)

(** [l[i]] for a list of length [len]: indices [0 .. len-1] count from the
    front, [-len .. -1] from the back, everything else raises. *)
Definition py_index (len : nat) (i : Z) : option nat :=
  if (0 <=? i) && (i <? Z.of_nat len) then Some (Z.to_nat i)
  else if (- Z.of_nat len <=? i) && (i <? 0) then Some (Z.to_nat (Z.of_nat len + i))
  else None.

Definition getitem {A : Type} (l : list A) (i : Z) : result A :=
  match py_index (length l) i with
  | Some k =>
      match l !! k with
      | Some x => Ok x
      | None => Raise IndexError
      end
  | None => Raise IndexError
  end.

(** [l[i] += 1] *)
Definition incr_item (l : list Z) (i : Z) : result (list Z) :=
  match py_index (length l) i with
  | Some k => Ok (alter (fun x => x + 1) k l)
  | None => Raise IndexError
  end.

(** [range(n)]: empty when [n <= 0]. *)
Definition range (n : Z) : list Z := seqZ 0 n.

(** ** The instance *)

Record Instance : Type := {
  number_of_students : Z;
  number_of_exams : Z;
  number_of_slots : Z;
  number_of_rooms : Z;
  room_capacities : list Z;
  exams_to_students : list (Z * Z);
  student_exam_capacity : list Z
}.

(** [Instance()] *)
Definition Instance_init : Instance :=
  {| number_of_students := 0; number_of_exams := 0; number_of_slots := 0;
     number_of_rooms := 0; room_capacities := []; exams_to_students := [];
     student_exam_capacity := [] |}.

(** The loop [for exam, student in instance.exams_to_students:
    instance.student_exam_capacity[exam] += 1]. *)
Fixpoint count_students (regs : list (Z * Z)) (cap : list Z) : result (list Z) :=
  match regs with
  | [] => Ok cap
  | (exam, _) :: rest => cap' ← incr_item cap exam; count_students rest cap'
  end.

(** ** The reader: [read_file]

    The file is the list of its lines, each as [f.readline()] returns it
    (with its newline); at the end of the file [readline] returns the empty
    string.  Lines are ASCII: on such lines the classes [\s] and [\d] of
    Python's [re] are [is_space] and [is_digit], and [int] reads decimal
    digits ([int]'s limit on the number of digits is not modelled). *)

Definition is_space (c : ascii) : bool :=
  let n := nat_of_ascii c in
  ((9 <=? n) && (n <=? 13) || (28 <=? n) && (n <=? 32))%nat.

Definition is_digit (c : ascii) : bool :=
  let n := nat_of_ascii c in ((48 <=? n) && (n <=? 57))%nat.

(** [\s*], greedy. *)
Fixpoint skip_spaces (s : string) : string :=
  match s with
  | String c s' => if is_space c then skip_spaces s' else s
  | EmptyString => s
  end.

(** The digits of a greedy [\d+] converted by [int], most significant
    first, with the rest of the line. *)
Fixpoint read_digits (s : string) (acc : Z) : Z * string :=
  match s with
  | String c s' =>
      if is_digit c
      then read_digits s' (10 * acc + Z.of_nat (nat_of_ascii c - 48))
      else (acc, s)
  | EmptyString => (acc, s)
  end.

(** [(\d+)]: at least one digit. *)
Definition match_number (s : string) : option (Z * string) :=
  match s with
  | String c _ => if is_digit c then Some (read_digits s 0) else None
  | EmptyString => None
  end.

(** A literal at the start of the line. *)
Fixpoint strip_prefix (p s : string) : option string :=
  match p, s with
  | EmptyString, _ => Some s
  | String a p', String b s' => if Ascii.eqb a b then strip_prefix p' s' else None
  | String _ _, EmptyString => None
  end.

(** [$]: the end of the string, or just before a newline that ends it. *)
Definition at_end (s : string) : bool :=
  match s with
  | EmptyString => true
  | String c EmptyString => Ascii.eqb c "010"
  | _ => false
  end.

(** [re.match(f'{name}:\s*(\d+)$', line)] and [int(match.group(1))]. *)
Definition match_attribute (name line : string) : option Z :=
  rest ← strip_prefix (name ++ ":")%string line;
  '(n, rest') ← match_number (skip_spaces rest);
  if at_end rest' then Some n else None.

(** [re.match('^\s*(\d+)\s+(\d+)\s*$', l)] and the pair of [int]s. *)
Definition match_registration (l : string) : option (Z * Z) :=
  '(e, r1) ← match_number (skip_spaces l);
  match r1 with
  | String c _ =>
      if is_space c then
        '(s, r2) ← match_number (skip_spaces r1);
        match skip_spaces r2 with
        | EmptyString => Some (e, s)
        | _ => None
        end
      else None
  | EmptyString => None
  end.

Definition readline (f : list string) : string * list string :=
  match f with
  | [] => (EmptyString, [])
  | l :: f' => (l, f')
  end.

Definition read_attribute (name : string) (f : list string)
  : result (Z * list string) :=
  let '(line, f') := readline f in
  match match_attribute name line with
  | Some n => Ok (n, f')
  | None =>
      Raise (Exception ("Could not parse line " ++ line
                        ++ "; expected the " ++ name ++ " attribute")%string)
  end.

(** [str(r)] for [r] in a [range]. *)
Definition str_nat (r : nat) : string :=
  NilEmpty.string_of_uint (Nat.to_uint r).

(** [for r in range(number_of_rooms): room_capacities.append(...)], from
    room [r] on, [count] rooms left. *)
Fixpoint read_capacities (count r : nat) (f : list string)
  : result (list Z * list string) :=
  match count with
  | O => Ok ([], f)
  | S count' =>
      '(c, f') ← read_attribute ("Room " ++ str_nat r ++ " capacity")%string f;
      '(cs, f'') ← read_capacities count' (S r) f';
      Ok (c :: cs, f'')
  end.

(** The [while True] loop; the end of the file is the end of the list. *)
Fixpoint read_registrations (f : list string) : result (list (Z * Z)) :=
  match f with
  | [] => Ok []
  | l :: f' =>
      if String.eqb l EmptyString then Ok []
      else match match_registration l with
           | Some p => ps ← read_registrations f'; Ok (p :: ps)
           | None => Raise (Exception ("Failed to parse this line: " ++ l)%string)
           end
  end.

(** Lines 25 to 43: the instance as it stands before the counting loop. *)
Definition parse_file (f : list string) : result Instance :=
  '(nstudents, f) ← read_attribute "Number of students" f;
  '(nexams, f) ← read_attribute "Number of exams" f;
  '(nslots, f) ← read_attribute "Number of slots" f;
  '(nrooms, f) ← read_attribute "Number of rooms" f;
  '(caps, f) ← read_capacities (Z.to_nat nrooms) 0 f;
  regs ← read_registrations f;
  Ok {| number_of_students := nstudents; number_of_exams := nexams;
        number_of_slots := nslots; number_of_rooms := nrooms;
        room_capacities := caps; exams_to_students := regs;
        student_exam_capacity := [] |}.

(** [instance.student_exam_capacity = cap] *)
Definition set_student_exam_capacity (i : Instance) (cap : list Z) : Instance :=
  {| number_of_students := number_of_students i;
     number_of_exams := number_of_exams i;
     number_of_slots := number_of_slots i;
     number_of_rooms := number_of_rooms i;
     room_capacities := room_capacities i;
     exams_to_students := exams_to_students i;
     student_exam_capacity := cap |}.

(** Lines 45 to 48: the table starts as [[0] * number_of_exams]. *)
Definition count_capacity (i : Instance) : result Instance :=
  cap ← count_students (exams_to_students i)
                       (replicate (Z.to_nat (number_of_exams i)) 0);
  mret (set_student_exam_capacity i cap).

Definition read_file (f : list string) : result Instance :=
  i ← parse_file f; count_capacity i.

(** ** The solver's formulas

    [Function('ExamRoom', IntSort(), IntSort())] and the other declarations
    are uninterpreted: an interpretation gives each of them a value, and
    [BoolSort] is [bool]. *)
Record Model : Type := {
  Student_Range : Z -> bool;
  Exam_Range : Z -> bool;
  Room_Range : Z -> bool;
  TimeSlot_Range : Z -> bool;
  ExamRoom : Z -> Z;
  ExamTime : Z -> Z;
  ExamStudent : Z -> Z -> bool
}.

(** What [s.add] takes: a closed formula, true or false in an
    interpretation. *)
Definition Assertion : Type := Model -> Prop.

Definition holds (s : list Assertion) (m : Model) : Prop :=
  Forall (fun a => a m) s.

(** [And(x >= 0, x < n)] *)
Definition in_range (x n : Z) : bool := (x >=? 0) && (x <? n).

(** Lines 69 to 72, in the order of the source. *)
Definition student_range_def (i : Instance) : Assertion := fun m =>
  forall student, Student_Range m student = in_range student (number_of_students i).
Definition exam_range_def (i : Instance) : Assertion := fun m =>
  forall exam, Exam_Range m exam = in_range exam (number_of_exams i).
Definition timeslot_range_def (i : Instance) : Assertion := fun m =>
  forall timeslot, TimeSlot_Range m timeslot = in_range timeslot (number_of_slots i).
Definition room_range_def (i : Instance) : Assertion := fun m =>
  forall room, Room_Range m room = in_range room (number_of_rooms i).

Definition range_defs (i : Instance) : list Assertion :=
  [student_range_def i; exam_range_def i; timeslot_range_def i; room_range_def i].

(** Lines 80 and 81: one fact per registration. *)
Definition registration_facts (i : Instance) : list Assertion :=
  map (fun '(exam_id, student_id) => fun m : Model =>
         ExamStudent m exam_id student_id = true)
      (exams_to_students i).

(** Constraint 1 and 2, lines 85 to 110. *)
Definition room_and_time : Assertion := fun m =>
  forall exam, Exam_Range m exam = true ->
    exists room timeslot,
      Room_Range m room = true /\
      TimeSlot_Range m timeslot = true /\
      ExamTime m exam = timeslot /\
      ExamRoom m exam = room /\
      ~ (exists next_exam,
            Exam_Range m next_exam = true /\
            (ExamRoom m next_exam = room /\
             ExamTime m next_exam = timeslot /\
             exam <> next_exam)).

(** Constraint 3, lines 113 to 115.  The comparison of the two list items
    is evaluated by Python while the formula is built. *)
Definition capacity_formula (ex rm : Z) (fits : bool) : Assertion := fun m =>
  ExamRoom m ex = rm -> fits = true.

Definition room_capacity (i : Instance) : result (list Assertion) :=
  rows ← mapM (fun ex =>
            mapM (fun rm =>
                    count ← getitem (student_exam_capacity i) ex;
                    cap ← getitem (room_capacities i) rm;
                    mret (capacity_formula ex rm (count <=? cap)))
                 (range (number_of_rooms i)))
         (range (number_of_exams i));
  mret (concat rows).

(** The conclusion of constraint 4, line 136. *)
Definition apart (timeslot next_timeslot : Z) : Prop :=
  timeslot + 1 <> next_timeslot /\ timeslot - 1 <> next_timeslot /\
  timeslot <> next_timeslot.

(** Constraint 4, lines 118 to 140. *)
Definition non_overlapping : Assertion := fun m =>
  forall student exam next_exam timeslot next_timeslot,
    (Student_Range m student = true /\
     Exam_Range m exam = true /\
     Exam_Range m next_exam = true /\
     TimeSlot_Range m timeslot = true /\
     TimeSlot_Range m next_timeslot = true /\
     exam <> next_exam) ->
    (ExamTime m exam = timeslot /\
     ExamTime m next_exam = next_timeslot /\
     ExamStudent m exam student = true /\
     ExamStudent m next_exam student = true) ->
    apart timeslot next_timeslot.

(** Everything that [solve] adds before it calls [s.check()]. *)
Definition constraints (i : Instance) : result (list Assertion) :=
  caps ← room_capacity i;
  mret (range_defs i ++ registration_facts i ++ [room_and_time]
        ++ caps ++ [non_overlapping]).

(** ** The solver and [solve] *)

Inductive CheckSatResult : Type := sat | unsat | unknown.

(** One line of the exam timetable. *)
Record Row : Type := {
  row_exam : Z;
  row_room : Z;
  row_slot : Z;
  row_students : Z
}.

(** What [solve] prints, without the timing: the verdict and, when
    satisfied, the exam timetable, the timetable of each student as the list
    of its (exam, slot, room) and the students of the warning. *)
Inductive Report : Type :=
  | Satisfied (timetable : list Row)
              (individual : list (Z * list (Z * Z * Z)))
              (students_with_many_exams : list Z)
  | Unsatisfied.

(** The list comprehension of lines 159 to 163. *)
Definition exams_for_student (m : Model) (i : Instance) (student_id : Z)
  : list (Z * Z * Z) :=
  map (fun '(exam, _) => (exam, ExamTime m exam, ExamRoom m exam))
      (List.filter (fun '(_, stud) => stud =? student_id) (exams_to_students i)).

Section Solve.

(** [s.check()] and [s.model()] on the formulas added so far.  The model
    is read only after the answer [sat]. *)
Variable z3 : list Assertion -> CheckSatResult * Model.

(** An exception that escapes from [solve] is the result [Raise]; what was
    printed before it is not kept. *)
Definition solve (instance : Instance) : result Report :=
  s ← constraints instance;
  match z3 s with
  | (sat, m) =>
      timetable ← mapM (fun ex =>
          students_count ← getitem (student_exam_capacity instance) ex;
          mret {| row_exam := ex; row_room := ExamRoom m ex;
                  row_slot := ExamTime m ex; row_students := students_count |})
        (range (number_of_exams instance));
      let individual :=
        map (fun student_id => (student_id, exams_for_student m instance student_id))
            (range (number_of_students instance)) in
      let many :=
        map fst (List.filter (fun p => (3 <? length (snd p))%nat) individual) in
      mret (Satisfied timetable individual many)
  | _ => mret Unsatisfied
  end.

End Solve.

(** What the solver promises about its answer on the formulas [s]: after
    [sat] its model satisfies them all, after [unsat] nothing does. *)
Definition z3_sound (z3 : list Assertion -> CheckSatResult * Model)
    (s : list Assertion) : Prop :=
  (fst (z3 s) = sat -> holds s (snd (z3 s))) /\
  (fst (z3 s) = unsat -> forall m, ~ holds s m).

(** The solver decides [s]: its answer is not [unknown]. *)
Definition z3_decides (z3 : list Assertion -> CheckSatResult * Model)
    (s : list Assertion) : Prop :=
  fst (z3 s) <> unknown.

(** ** The constraint families, as the specification words them *)

(** [studentCount] and [capacity] read the two tables of the instance. *)
Definition studentCount (i : Instance) (e : Z) : Z :=
  student_exam_capacity i !!! Z.to_nat e.
Definition capacity (i : Instance) (r : Z) : Z :=
  room_capacities i !!! Z.to_nat r.

Definition is_exam (i : Instance) (e : Z) : Prop := 0 <= e < number_of_exams i.
Definition is_room (i : Instance) (r : Z) : Prop := 0 <= r < number_of_rooms i.
Definition is_slot (i : Instance) (t : Z) : Prop := 0 <= t < number_of_slots i.
Definition is_student (i : Instance) (st : Z) : Prop := 0 <= st < number_of_students i.

(** Two exams share a student when some student of the instance is
    registered for both. *)
Definition share_student (i : Instance) (e1 e2 : Z) : Prop :=
  exists st, is_student i st /\
             (e1, st) ∈ exams_to_students i /\ (e2, st) ∈ exams_to_students i.

(** The four families: total assignment, room capacity, no double-booking,
    student separation. *)
Record feasible (i : Instance) (room time : Z -> Z) : Prop := {
  fam_total : forall e, is_exam i e -> is_room i (room e) /\ is_slot i (time e);
  fam_capacity : forall e, is_exam i e -> studentCount i e <= capacity i (room e);
  fam_no_double_booking : forall e1 e2, is_exam i e1 -> is_exam i e2 -> e1 <> e2 ->
      ~ (room e1 = room e2 /\ time e1 = time e2);
  fam_separation : forall e1 e2, is_exam i e1 -> is_exam i e2 -> e1 <> e2 ->
      share_student i e1 e2 -> Z.abs (time e1 - time e2) > 1
}.

(** The exam timetable of an assignment: one row per exam, in order. *)
Definition timetable_of (i : Instance) (room time : Z -> Z) : list Row :=
  map (fun e => {| row_exam := e; row_room := room e; row_slot := time e;
                   row_students := studentCount i e |})
      (range (number_of_exams i)).

(** The tables have the lengths that the counts announce, as [read_file]
    leaves them. *)
Definition well_formed (i : Instance) : Prop :=
  length (room_capacities i) = Z.to_nat (number_of_rooms i) /\
  length (student_exam_capacity i) = Z.to_nat (number_of_exams i).

(** The interpretation that reads an assignment: the ranges as they are
    defined, [ExamStudent] true exactly on the registrations. *)
Definition model_of (i : Instance) (room time : Z -> Z) : Model :=
  {| Student_Range := fun x => in_range x (number_of_students i);
     Exam_Range := fun x => in_range x (number_of_exams i);
     Room_Range := fun x => in_range x (number_of_rooms i);
     TimeSlot_Range := fun x => in_range x (number_of_slots i);
     ExamRoom := room;
     ExamTime := time;
     ExamStudent := fun e st => bool_decide ((e, st) ∈ exams_to_students i) |}.

(** Constraint 3 once Python has evaluated every comparison. *)
Definition capacity_formulas (i : Instance) : list Assertion :=
  concat (map (fun ex =>
                 map (fun rm => capacity_formula ex rm
                                  (studentCount i ex <=? capacity i rm))
                     (range (number_of_rooms i)))
              (range (number_of_exams i))).

(** The formulas in the order of the calls to [s.add]. *)
Definition formulas (i : Instance) : list Assertion :=
  range_defs i ++ registration_facts i ++ [room_and_time]
  ++ capacity_formulas i ++ [non_overlapping].

(** What [solve] reports after the answer [sat] with the model [m]. *)
Definition individual_of (i : Instance) (m : Model) : list (Z * list (Z * Z * Z)) :=
  map (fun student_id => (student_id, exams_for_student m i student_id))
      (range (number_of_students i)).

Definition satisfied_report (i : Instance) (m : Model) : Report :=
  Satisfied (timetable_of i (ExamRoom m) (ExamTime m))
            (individual_of i m)
            (map fst (List.filter (fun p => (3 <? length (snd p))%nat)
                                  (individual_of i m))).

(** The number of registrations of an exam in the list, each line counted. *)
Definition registrations_of (regs : list (Z * Z)) (e : Z) : Z :=
  Z.of_nat (length (List.filter (fun p => fst p =? e) regs)).

(** The instance with another registration list. *)
Definition with_registrations (i : Instance) (regs : list (Z * Z)) : Instance :=
  {| number_of_students := number_of_students i;
     number_of_exams := number_of_exams i;
     number_of_slots := number_of_slots i;
     number_of_rooms := number_of_rooms i;
     room_capacities := room_capacities i;
     exams_to_students := regs;
     student_exam_capacity := student_exam_capacity i |}.

(** The character [c] is written in the line [s]; a number written as
    negative has a minus sign. *)
Fixpoint occurs (c : ascii) (s : string) : bool :=
  match s with
  | EmptyString => false
  | String a s' => Ascii.eqb a c || occurs c s'
  end.

(** Every number of the instance is a natural number, as [\d+] reads it. *)
Definition natural_numbers (i : Instance) : Prop :=
  0 <= number_of_students i /\ 0 <= number_of_exams i /\
  0 <= number_of_slots i /\ 0 <= number_of_rooms i /\
  Forall (fun c => 0 <= c) (room_capacities i) /\
  Forall (fun p => 0 <= fst p /\ 0 <= snd p) (exams_to_students i).

(** ** The instances of the scenarios

    Three exams, one room of capacity 100, student 0 registered for exams 0
    and 1 and student 1 for exam 2, with three slots and with two. *)
Definition nl : string := String "010" EmptyString.

Definition three_slots_file : list string :=
  ["Number of students: 2" ++ nl; "Number of exams: 3" ++ nl;
   "Number of slots: 3" ++ nl; "Number of rooms: 1" ++ nl;
   "Room 0 capacity: 100" ++ nl; "0 0" ++ nl; "1 0" ++ nl; "2 1" ++ nl]%string.

Definition three_slots : Instance :=
  {| number_of_students := 2; number_of_exams := 3; number_of_slots := 3;
     number_of_rooms := 1; room_capacities := [100];
     exams_to_students := [(0, 0); (1, 0); (2, 1)];
     student_exam_capacity := [1; 1; 1] |}.

Definition two_slots : Instance :=
  {| number_of_students := 2; number_of_exams := 3; number_of_slots := 2;
     number_of_rooms := 1; room_capacities := [100];
     exams_to_students := [(0, 0); (1, 0); (2, 1)];
     student_exam_capacity := [1; 1; 1] |}.

(** Exams 0 and 1 at slots 0 and 2, exam 2 between them, all in room 0. *)
Definition room0 (e : Z) : Z := 0.
Definition spread (e : Z) : Z := if e =? 0 then 0 else if e =? 1 then 2 else 1.

(** Two exams with disjoint students, one room, one slot. *)
Definition pigeonhole : Instance :=
  {| number_of_students := 2; number_of_exams := 2; number_of_slots := 1;
     number_of_rooms := 1; room_capacities := [10];
     exams_to_students := [(0, 0); (1, 1)];
     student_exam_capacity := [1; 1] |}.

(** No exam at all. *)
Definition no_exam : Instance :=
  {| number_of_students := 3; number_of_exams := 0; number_of_slots := 2;
     number_of_rooms := 1; room_capacities := [5];
     exams_to_students := [];
     student_exam_capacity := [] |}.

(** A registration of student 7 where student 0 is the only student. *)
Definition stray_student_file : list string :=
  ["Number of students: 1" ++ nl; "Number of exams: 1" ++ nl;
   "Number of slots: 1" ++ nl; "Number of rooms: 1" ++ nl;
   "Room 0 capacity: 5" ++ nl; "0 7" ++ nl]%string.

Definition stray_student : Instance :=
  {| number_of_students := 1; number_of_exams := 1; number_of_slots := 1;
     number_of_rooms := 1; room_capacities := [5];
     exams_to_students := [(0, 7)];
     student_exam_capacity := [1] |}.

(** The same instance before the counting loop. *)
Definition stray_student_parsed : Instance :=
  set_student_exam_capacity stray_student [].

(** One exam in a room for one student, the registration listed once and
    listed twice. *)
Definition listed_once_file : list string :=
  ["Number of students: 1" ++ nl; "Number of exams: 1" ++ nl;
   "Number of slots: 1" ++ nl; "Number of rooms: 1" ++ nl;
   "Room 0 capacity: 1" ++ nl; "0 0" ++ nl]%string.

Definition listed_twice_file : list string :=
  listed_once_file ++ ["0 0" ++ nl]%string.

Definition listed_once : Instance :=
  {| number_of_students := 1; number_of_exams := 1; number_of_slots := 1;
     number_of_rooms := 1; room_capacities := [1];
     exams_to_students := [(0, 0)];
     student_exam_capacity := [1] |}.

Definition listed_twice : Instance :=
  {| number_of_students := 1; number_of_exams := 1; number_of_slots := 1;
     number_of_rooms := 1; room_capacities := [1];
     exams_to_students := [(0, 0); (0, 0)];
     student_exam_capacity := [2] |}.

(** Two exams whose only registrations are of student 7, outside the
    students of the instance. *)
Definition stray_pair : Instance :=
  {| number_of_students := 1; number_of_exams := 2; number_of_slots := 2;
     number_of_rooms := 1; room_capacities := [5];
     exams_to_students := [(0, 7); (1, 7)];
     student_exam_capacity := [1; 1] |}.

(** Exams 0 and 1 at slots 2 and 0, exam 2 between them. *)
Definition spread_back (e : Z) : Z := if e =? 0 then 2 else if e =? 1 then 0 else 1.

(** The verdict of a run of [solve]. *)
Definition reports_satisfied (r : result Report) : bool :=
  match r with
  | Ok (Satisfied _ _ _) => true
  | _ => false
  end.

(** A solver that gives the same answer to everything. *)
Definition z3_answers (r : CheckSatResult) (m : Model)
  : list Assertion -> CheckSatResult * Model := fun _ => (r, m).

(** A file whose number of slots is written as negative. *)
Definition negative_slots_file : list string :=
  ["Number of students: 1" ++ nl; "Number of exams: 1" ++ nl;
   "Number of slots: -1" ++ nl; "Number of rooms: 1" ++ nl;
   "Room 0 capacity: 5" ++ nl; "0 0" ++ nl]%string.

(** ** Files in the format that [read_file] reads *)

(** [str(n)] for a natural number [n]. *)
Definition str_Z (n : Z) : string := str_nat (Z.to_nat n).

(** The line [f"{name}: {n}"] with its newline. *)
Definition attribute_line (name : string) (n : Z) : string :=
  ((name ++ ":") ++ " " ++ str_Z n ++ nl)%string.

(** The line [f"{exam} {student}"] with its newline. *)
Definition registration_line (p : Z * Z) : string :=
  (str_Z (fst p) ++ " " ++ str_Z (snd p) ++ nl)%string.

(** The capacity lines of the rooms [r], [r + 1], ... *)
Fixpoint capacity_lines (r : nat) (caps : list Z) : list string :=
  match caps with
  | [] => []
  | c :: caps' =>
      attribute_line ("Room " ++ str_nat r ++ " capacity") c
      :: capacity_lines (S r) caps'
  end.

(** The file that lists an instance: the four counts, one capacity per
    room, one line per registration. *)
Definition instance_file (i : Instance) : list string :=
  [attribute_line "Number of students" (number_of_students i);
   attribute_line "Number of exams" (number_of_exams i);
   attribute_line "Number of slots" (number_of_slots i);
   attribute_line "Number of rooms" (number_of_rooms i)]
  ++ capacity_lines 0 (room_capacities i)
  ++ map registration_line (exams_to_students i).

(** The sum of a table. *)
Definition total (l : list Z) : Z := foldr Z.add 0 l.

(** The number of registration lines of a student. *)
Definition exams_of (regs : list (Z * Z)) (st : Z) : nat :=
  length (List.filter (fun p => snd p =? st) regs).

(** The instance with another number of slots. *)
Definition set_number_of_slots (i : Instance) (n : Z) : Instance :=
  {| number_of_students := number_of_students i;
     number_of_exams := number_of_exams i;
     number_of_slots := n;
     number_of_rooms := number_of_rooms i;
     room_capacities := room_capacities i;
     exams_to_students := exams_to_students i;
     student_exam_capacity := student_exam_capacity i |}.

(** ** The main loop

    Lines 188 to 197 without the timing.  The files are those that the
    [glob] yields, in its order, each with its name and its lines.  What is
    printed is the name of each file that was read and the report of
    [solve]; an exception ends the run. *)
Inductive Printed : Type :=
  | FileName (filename : string)
  | Verdict (report : Report).

Section Main.

Variable z3 : list Assertion -> CheckSatResult * Model.

Fixpoint main (files : list (string * list string)) : list Printed * option exn :=
  match files with
  | [] => ([], None)
  | (filename, f) :: rest =>
      match read_file f with
      | Raise e => ([], Some e)
      | Ok instance =>
          match solve z3 instance with
          | Raise e => ([FileName filename], Some e)
          | Ok report =>
              let '(out, err) := main rest in
              (FileName filename :: Verdict report :: out, err)
          end
      end
  end.

End Main.

(** What a run prints for the files that were read and solved. *)
Definition printed_run (runs : list (string * Report)) : list Printed :=
  flat_map (fun run => [FileName (fst run); Verdict (snd run)]) runs.

(** * Properties *)

(** ** Ranges and list items *)

Lemma in_range_true x n : in_range x n = true <-> 0 <= x < n.
Proof. unfold in_range. rewrite andb_true_iff, Z.geb_le, Z.ltb_lt. lia. Qed.

Lemma elem_of_range x n : x ∈ range n <-> 0 <= x < n.
Proof. unfold range. rewrite elem_of_seqZ. lia. Qed.

Lemma py_index_nonneg len i :
  0 <= i -> py_index len i = if i <? Z.of_nat len then Some (Z.to_nat i) else None.
Proof.
  intros Hi. unfold py_index.
  replace (0 <=? i) with true by (symmetry; apply Z.leb_le; lia).
  replace (i <? 0) with false by (symmetry; apply Z.ltb_ge; lia).
  rewrite andb_false_r. simpl. reflexivity.
Qed.

Lemma getitem_nonneg {A} (l : list A) i x :
  0 <= i -> getitem l i = Ok x <-> l !! Z.to_nat i = Some x.
Proof.
  intros Hi. unfold getitem. rewrite py_index_nonneg by assumption.
  destruct (Z.ltb_spec i (Z.of_nat (length l))) as [Hlt | Hge].
  - destruct (l !! Z.to_nat i) eqn:E; split; congruence.
  - rewrite lookup_ge_None_2 by lia. split; congruence.
Qed.

Lemma getitem_total `{Inhabited A} (l : list A) i x :
  0 <= i -> getitem l i = Ok x -> l !!! Z.to_nat i = x.
Proof.
  intros Hi Hg. apply getitem_nonneg in Hg; [|assumption].
  by rewrite list_lookup_total_alt, Hg.
Qed.

Lemma getitem_in_range `{Inhabited A} (l : list A) i :
  0 <= i < Z.of_nat (length l) -> getitem l i = Ok (l !!! Z.to_nat i).
Proof.
  intros Hi. apply getitem_nonneg; [lia|].
  apply list_lookup_lookup_total_lt. lia.
Qed.

(** ** [mapM] in the exception monad *)

Lemma mapM_Ok_inv {A B} (f : A -> result B) (g : A -> B) l k :
  (forall x y, x ∈ l -> f x = Ok y -> y = g x) ->
  mapM f l = Ok k -> k = map g l.
Proof.
  revert k. induction l as [|x l IH]; intros k Hf; simpl.
  - intros [= <-]. reflexivity.
  - destruct (f x) as [y|] eqn:Ex; simpl; [|discriminate].
    destruct (mapM f l) as [k'|] eqn:El; simpl; [|discriminate].
    intros [= <-]. f_equal.
    + apply Hf; [left|assumption].
    + apply IH; [|reflexivity]. intros x' y' Hin. apply Hf. by right.
Qed.

Lemma mapM_Ok_intro {A B} (f : A -> result B) (g : A -> B) l :
  (forall x, x ∈ l -> f x = Ok (g x)) -> mapM f l = Ok (map g l).
Proof.
  induction l as [|x l IH]; intros Hf; simpl; [reflexivity|].
  rewrite Hf by left. simpl. rewrite IH; [reflexivity|].
  intros x' Hin. apply Hf. by right.
Qed.

(** ** The counting loop of [read_file] *)

Lemma incr_item_in_range cap e :
  0 <= e < Z.of_nat (length cap) ->
  incr_item cap e = Ok (alter (fun x => x + 1) (Z.to_nat e) cap).
Proof.
  intros He. unfold incr_item. rewrite py_index_nonneg by lia.
  destruct (Z.ltb_spec e (Z.of_nat (length cap))); [reflexivity | lia].
Qed.

Lemma incr_item_length cap e cap' :
  incr_item cap e = Ok cap' -> length cap' = length cap.
Proof.
  unfold incr_item. destruct (py_index _ e); [|discriminate].
  intros [= <-]. apply length_alter.
Qed.

Lemma registrations_of_cons e0 st regs e :
  registrations_of ((e0, st) :: regs) e
  = (if e0 =? e then 1 else 0) + registrations_of regs e.
Proof.
  unfold registrations_of. simpl. destruct (e0 =? e); simpl; lia.
Qed.

(** With every exam id inside the table, the loop ends and has added to each
    cell the number of registrations of its exam. *)
Lemma count_students_in_range regs : forall cap,
  (forall e st, (e, st) ∈ regs -> 0 <= e < Z.of_nat (length cap)) ->
  exists cap', count_students regs cap = Ok cap' /\
               length cap' = length cap /\
               forall e, 0 <= e ->
                 cap' !!! Z.to_nat e = cap !!! Z.to_nat e + registrations_of regs e.
Proof.
  induction regs as [|[e0 st0] regs IH]; intros cap Hin; simpl.
  - exists cap. repeat split; [].
    intros e _. unfold registrations_of. simpl. lia.
  - assert (He0 : 0 <= e0 < Z.of_nat (length cap)) by (apply (Hin e0 st0); left).
    rewrite (incr_item_in_range cap e0 He0). simpl.
    destruct (IH (alter (fun x => x + 1) (Z.to_nat e0) cap)) as (cap' & Hc & Hlen & Hval).
    { intros e st Hmem. rewrite length_alter. apply (Hin e st). by right. }
    exists cap'. rewrite length_alter in Hlen. repeat split; try assumption.
    intros e He. rewrite (Hval e He), registrations_of_cons, list_lookup_total_alter.
    destruct (Z.eqb_spec e0 e) as [-> | Hne].
    + rewrite decide_True by (split; [reflexivity | lia]). lia.
    + rewrite decide_False by (intros [Heq _]; apply Hne; lia). lia.
Qed.

(** An exam id that is no index of the table stops the loop with
    [IndexError]. *)
Lemma count_students_index_error regs : forall cap,
  (exists e st, (e, st) ∈ regs /\ py_index (length cap) e = None) ->
  count_students regs cap = Raise IndexError.
Proof.
  induction regs as [|[e0 st0] regs IH]; intros cap (e & st & Hmem & Hbad); simpl.
  - inversion Hmem.
  - destruct (incr_item cap e0) as [cap1|x] eqn:E0; simpl.
    + apply IH. rewrite (incr_item_length _ _ _ E0).
      apply elem_of_cons in Hmem as [[= -> ->] | Hmem]; [|eauto].
      unfold incr_item in E0. rewrite Hbad in E0. discriminate.
    + unfold incr_item in E0. destruct (py_index _ e0); [discriminate|].
      by injection E0 as <-.
Qed.

Lemma count_students_length regs : forall cap cap',
  count_students regs cap = Ok cap' -> length cap' = length cap.
Proof.
  induction regs as [|[e0 st0] regs IH]; intros cap cap'; simpl.
  - by intros [= <-].
  - destruct (incr_item cap e0) as [cap1|] eqn:E0; simpl; [|discriminate].
    intros Hc. rewrite (IH _ _ Hc). by eapply incr_item_length.
Qed.

Lemma count_students_member regs cap cap' e st :
  count_students regs cap = Ok cap' -> (e, st) ∈ regs ->
  exists k, py_index (length cap) e = Some k.
Proof.
  intros Hc Hmem. destruct (py_index (length cap) e) as [k|] eqn:E; [by exists k|].
  rewrite (count_students_index_error regs cap) in Hc; [discriminate | eauto].
Qed.

Lemma alter_incr_commute (cap : list Z) k0 k :
  alter (fun x => x + 1) k0 (alter (fun x => x + 1) k cap)
  = alter (fun x => x + 1) k (alter (fun x => x + 1) k0 cap).
Proof.
  destruct (decide (k0 = k)) as [-> | Hne]; [reflexivity|].
  by apply list_alter_alter_ne.
Qed.

(** One more increment before the loop is one more increment after it. *)
Lemma count_students_alter regs : forall cap cap' k,
  count_students regs cap = Ok cap' ->
  count_students regs (alter (fun x => x + 1) k cap)
  = Ok (alter (fun x => x + 1) k cap').
Proof.
  induction regs as [|[e0 st0] regs IH]; intros cap cap' k; simpl.
  - by intros [= <-].
  - unfold incr_item. rewrite length_alter.
    destruct (py_index (length cap) e0) as [k0|]; simpl; [|discriminate].
    intros Hc. rewrite alter_incr_commute. by apply IH.
Qed.

(** A registration added anywhere in the list is one more increment of the
    cell of its exam. *)
Lemma count_students_insert l1 : forall l2 e st cap cap' k,
  py_index (length cap) e = Some k ->
  count_students (l1 ++ l2) cap = Ok cap' ->
  count_students (l1 ++ (e, st) :: l2) cap = Ok (alter (fun x => x + 1) k cap').
Proof.
  induction l1 as [|[e0 st0] l1 IH]; intros l2 e st cap cap' k Hk; simpl.
  - intros Hc. unfold incr_item. rewrite Hk. simpl. by apply count_students_alter.
  - destruct (incr_item cap e0) as [cap1|] eqn:E0; simpl; [|discriminate].
    apply IH. by rewrite (incr_item_length _ _ _ E0).
Qed.

Lemma count_capacity_inv p i :
  count_capacity p = Ok i ->
  exists cap, count_students (exams_to_students p)
                (replicate (Z.to_nat (number_of_exams p)) 0) = Ok cap /\
              i = set_student_exam_capacity p cap /\
              length cap = Z.to_nat (number_of_exams p).
Proof.
  unfold count_capacity.
  destruct (count_students _ _) as [cap|] eqn:E; simpl; [|discriminate].
  intros [= <-]. exists cap. repeat split.
  by rewrite (count_students_length _ _ _ E), length_replicate.
Qed.

Lemma count_capacity_well_formed p i :
  length (room_capacities p) = Z.to_nat (number_of_rooms p) ->
  count_capacity p = Ok i -> well_formed i.
Proof.
  intros Hr (cap & _ & -> & Hlen)%count_capacity_inv. by split.
Qed.

(** ** The numbers that the reader accepts *)

Lemma read_digits_nonneg s : forall acc, 0 <= acc -> 0 <= fst (read_digits s acc).
Proof.
  induction s as [|c s IH]; intros acc Hacc; simpl; [assumption|].
  destruct (is_digit c); simpl; [|assumption]. apply IH. lia.
Qed.

Lemma match_number_nonneg s n rest : match_number s = Some (n, rest) -> 0 <= n.
Proof.
  unfold match_number. destruct s as [|c s]; [discriminate|].
  destruct (is_digit c); [|discriminate]. intros [= E].
  change (0 <= fst (n, rest)). rewrite <- E.
  exact (read_digits_nonneg (String c s) 0 (Z.le_refl 0)).
Qed.

Lemma match_attribute_nonneg name line n :
  match_attribute name line = Some n -> 0 <= n.
Proof.
  unfold match_attribute.
  destruct (strip_prefix _ line) as [rest|]; simpl; [|discriminate].
  destruct (match_number (skip_spaces rest)) as [[k rest']|] eqn:E; simpl; [|discriminate].
  destruct (at_end rest'); [|discriminate]. intros [= <-].
  by eapply match_number_nonneg.
Qed.

Lemma match_registration_nonneg l e st :
  match_registration l = Some (e, st) -> 0 <= e /\ 0 <= st.
Proof.
  unfold match_registration.
  destruct (match_number (skip_spaces l)) as [[e' r1]|] eqn:E1; simpl; [|discriminate].
  destruct r1 as [|c r1]; [discriminate|].
  destruct (is_space c); [|discriminate].
  destruct (match_number (skip_spaces (String c r1))) as [[s' r2]|] eqn:E2; simpl; [|discriminate].
  destruct (skip_spaces r2); [|discriminate]. intros [= <- <-].
  split; by eapply match_number_nonneg.
Qed.

Lemma read_attribute_nonneg name f n f' :
  read_attribute name f = Ok (n, f') -> 0 <= n.
Proof.
  unfold read_attribute. destruct (readline f) as [line f1].
  destruct (match_attribute name line) as [k|] eqn:E; [|discriminate].
  intros [= <- _]. by eapply match_attribute_nonneg.
Qed.

Lemma read_capacities_spec count : forall r f cs f',
  read_capacities count r f = Ok (cs, f') ->
  length cs = count /\ Forall (fun c => 0 <= c) cs.
Proof.
  induction count as [|count IH]; intros r f cs f'; simpl.
  - intros [= <- _]. by split.
  - destruct (read_attribute _ f) as [[c f1]|] eqn:E1; simpl; [|discriminate].
    destruct (read_capacities count (S r) f1) as [[cs1 f2]|] eqn:E2; simpl; [|discriminate].
    intros [= <- _]. destruct (IH _ _ _ _ E2) as [Hlen Hall].
    split; [simpl; by f_equal|].
    constructor; [by eapply read_attribute_nonneg | assumption].
Qed.

Lemma read_registrations_nonneg f : forall regs,
  read_registrations f = Ok regs ->
  Forall (fun p => 0 <= fst p /\ 0 <= snd p) regs.
Proof.
  induction f as [|l f IH]; intros regs; simpl.
  - intros [= <-]. constructor.
  - destruct (String.eqb l EmptyString); [intros [= <-]; constructor|].
    destruct (match_registration l) as [[e st]|] eqn:E; [|discriminate].
    destruct (read_registrations f) as [ps|]; simpl; [|discriminate].
    intros [= <-]. constructor; [|by apply IH].
    by eapply match_registration_nonneg.
Qed.

(** What [parse_file] returns holds natural numbers only, and one capacity
    per room. *)
Lemma parse_file_inv f p :
  parse_file f = Ok p ->
  natural_numbers p /\
  length (room_capacities p) = Z.to_nat (number_of_rooms p) /\
  student_exam_capacity p = [].
Proof.
  unfold parse_file.
  destruct (read_attribute _ f) as [[n1 f1]|] eqn:E1; simpl; [|discriminate].
  destruct (read_attribute _ f1) as [[n2 f2]|] eqn:E2; simpl; [|discriminate].
  destruct (read_attribute _ f2) as [[n3 f3]|] eqn:E3; simpl; [|discriminate].
  destruct (read_attribute _ f3) as [[n4 f4]|] eqn:E4; simpl; [|discriminate].
  destruct (read_capacities _ 0 f4) as [[caps f5]|] eqn:E5; simpl; [|discriminate].
  destruct (read_registrations f5) as [regs|] eqn:E6; simpl; [|discriminate].
  intros [= <-]. unfold natural_numbers. simpl.
  apply read_attribute_nonneg in E1, E2, E3, E4.
  apply read_capacities_spec in E5 as [Hlen Hcaps].
  apply read_registrations_nonneg in E6.
  repeat split; assumption.
Qed.

(** The reader raises its own exception only. *)
Lemma read_attribute_raises name f e :
  read_attribute name f = Raise e -> exists msg, e = Exception msg.
Proof.
  unfold read_attribute. destruct (readline f) as [line f'].
  destruct (match_attribute name line); [discriminate|]. intros [= <-]. eauto.
Qed.

Lemma read_capacities_raises count : forall r f e,
  read_capacities count r f = Raise e -> exists msg, e = Exception msg.
Proof.
  induction count as [|count IH]; intros r f e; simpl; [discriminate|].
  destruct (read_attribute _ f) as [[c f1]|e1] eqn:E1; simpl.
  - destruct (read_capacities count (S r) f1) as [[cs f2]|e2] eqn:E2; simpl; [discriminate|].
    intros [= <-]. by eapply IH.
  - intros [= <-]. by eapply read_attribute_raises.
Qed.

Lemma read_registrations_raises f : forall e,
  read_registrations f = Raise e -> exists msg, e = Exception msg.
Proof.
  induction f as [|l f IH]; intros e; simpl; [discriminate|].
  destruct (String.eqb l EmptyString); [discriminate|].
  destruct (match_registration l) as [p|].
  - destruct (read_registrations f) as [ps|e1]; simpl; [discriminate|].
    intros [= <-]. by apply IH.
  - intros [= <-]. eauto.
Qed.

Lemma parse_file_raises f e :
  parse_file f = Raise e -> exists msg, e = Exception msg.
Proof.
  unfold parse_file.
  destruct (read_attribute _ f) as [[n1 f1]|e1] eqn:E1; simpl;
    [|intros [= <-]; by eapply read_attribute_raises].
  destruct (read_attribute _ f1) as [[n2 f2]|e2] eqn:E2; simpl;
    [|intros [= <-]; by eapply read_attribute_raises].
  destruct (read_attribute _ f2) as [[n3 f3]|e3] eqn:E3; simpl;
    [|intros [= <-]; by eapply read_attribute_raises].
  destruct (read_attribute _ f3) as [[n4 f4]|e4] eqn:E4; simpl;
    [|intros [= <-]; by eapply read_attribute_raises].
  destruct (read_capacities _ 0 f4) as [[caps f5]|e5] eqn:E5; simpl;
    [|intros [= <-]; by eapply read_capacities_raises].
  destruct (read_registrations f5) as [regs|e6] eqn:E6; simpl; [discriminate|].
  intros [= <-]. by eapply read_registrations_raises.
Qed.

Lemma read_attribute_cons name f n f' :
  read_attribute name f = Ok (n, f') ->
  exists l, f = l :: f' /\ match_attribute name l = Some n.
Proof.
  unfold read_attribute. destruct f as [|l f0]; simpl.
  - unfold match_attribute. destruct name; simpl; discriminate.
  - destruct (match_attribute name l) as [k|] eqn:E; [|discriminate].
    intros [= <- <-]. by exists l.
Qed.

(** ** The characters of the lines that the reader accepts *)

Lemma occurs_app c s1 : forall s2,
  occurs c (s1 ++ s2) = occurs c s1 || occurs c s2.
Proof.
  induction s1 as [|a s1 IH]; intros s2; simpl; [reflexivity|].
  by rewrite IH, orb_assoc.
Qed.

Lemma occurs_skip_spaces c s :
  is_space c = false -> occurs c s = true -> occurs c (skip_spaces s) = true.
Proof.
  intros Hc. induction s as [|a s IH]; simpl; [done|].
  destruct (is_space a) eqn:Ha; [|done].
  intros [Heq|Hs]%orb_true_iff; [|by apply IH].
  apply Ascii.eqb_eq in Heq. congruence.
Qed.

Lemma occurs_read_digits c s : forall acc,
  is_digit c = false -> occurs c s = true ->
  occurs c (snd (read_digits s acc)) = true.
Proof.
  induction s as [|a s IH]; intros acc Hc; simpl; [done|].
  destruct (is_digit a) eqn:Ha; [|done].
  intros [Heq|Hs]%orb_true_iff; [|by apply IH].
  apply Ascii.eqb_eq in Heq. congruence.
Qed.

Lemma occurs_match_number c s n rest :
  is_digit c = false -> match_number s = Some (n, rest) ->
  occurs c s = true -> occurs c rest = true.
Proof.
  intros Hc. unfold match_number. destruct s as [|a s]; [done|].
  destruct (is_digit a); [|done]. intros [= E] Hs.
  change (occurs c (snd (n, rest)) = true). rewrite <- E.
  exact (occurs_read_digits c (String a s) 0 Hc Hs).
Qed.

Lemma occurs_strip_prefix c p : forall s r,
  occurs c p = false -> strip_prefix p s = Some r ->
  occurs c s = true -> occurs c r = true.
Proof.
  induction p as [|a p IH]; intros s r; simpl.
  - by intros _ [= ->].
  - intros [Ha Hp]%orb_false_iff. destruct s as [|b s]; [done|].
    destruct (Ascii.eqb_spec a b) as [<-|]; [|done].
    intros Hr. simpl. rewrite Ha. simpl. by apply IH.
Qed.

Lemma occurs_at_end c s :
  at_end s = true -> occurs c s = true -> is_space c = true.
Proof.
  destruct s as [|a [|b s]]; simpl; try done.
  intros ->%Ascii.eqb_eq. rewrite orb_false_r. by intros <-%Ascii.eqb_eq.
Qed.

(** A line that matches an attribute holds, after the name and the colon,
    spaces and digits only. *)
Lemma match_attribute_chars c name line n :
  occurs c (name ++ ":") = false -> is_space c = false -> is_digit c = false ->
  match_attribute name line = Some n -> occurs c line = false.
Proof.
  intros Hname Hsp Hdig. unfold match_attribute.
  destruct (strip_prefix _ line) as [rest|] eqn:E1; simpl; [|discriminate].
  destruct (match_number (skip_spaces rest)) as [[k rest']|] eqn:E2; simpl;
    [|discriminate].
  destruct (at_end rest') eqn:E3; [|discriminate]. intros _.
  destruct (occurs c line) eqn:Hline; [|reflexivity].
  pose proof (occurs_strip_prefix _ _ _ _ Hname E1 Hline) as H1.
  pose proof (occurs_skip_spaces _ _ Hsp H1) as H2.
  pose proof (occurs_match_number _ _ _ _ Hdig E2 H2) as H3.
  pose proof (occurs_at_end _ _ E3 H3). congruence.
Qed.

(** A line that matches a registration holds spaces and digits only. *)
Lemma match_registration_chars c l p :
  is_space c = false -> is_digit c = false ->
  match_registration l = Some p -> occurs c l = false.
Proof.
  intros Hsp Hdig. unfold match_registration.
  destruct (match_number (skip_spaces l)) as [[e r1]|] eqn:E1; simpl;
    [|discriminate].
  destruct r1 as [|a r1]; [discriminate|].
  destruct (is_space a); [|discriminate].
  destruct (match_number (skip_spaces (String a r1))) as [[s r2]|] eqn:E2;
    simpl; [|discriminate].
  destruct (skip_spaces r2) eqn:E3; [|discriminate]. intros _.
  destruct (occurs c l) eqn:Hl; [|reflexivity].
  pose proof (occurs_skip_spaces _ _ Hsp Hl) as H1.
  pose proof (occurs_match_number _ _ _ _ Hdig E1 H1) as H2.
  pose proof (occurs_skip_spaces _ _ Hsp H2) as H3.
  pose proof (occurs_match_number _ _ _ _ Hdig E2 H3) as H4.
  pose proof (occurs_skip_spaces _ _ Hsp H4) as H5.
  rewrite E3 in H5. discriminate.
Qed.

Lemma occurs_string_of_uint c d :
  is_digit c = false -> occurs c (NilEmpty.string_of_uint d) = false.
Proof.
  intros Hc. induction d as [|d IH|d IH|d IH|d IH|d IH|d IH|d IH|d IH|d IH|d IH];
    cbn [NilEmpty.string_of_uint occurs]; [reflexivity|..];
    rewrite IH, orb_false_r; apply Ascii.eqb_neq; intros <-;
    vm_compute in Hc; discriminate.
Qed.

Lemma read_attribute_no_minus name f n f' :
  occurs "-" name = false ->
  read_attribute name f = Ok (n, f') ->
  exists l, f = l :: f' /\ occurs "-" l = false.
Proof.
  intros Hname (l & -> & Hl)%read_attribute_cons. exists l.
  split; [reflexivity|].
  apply (match_attribute_chars "-" name l n); [|reflexivity|reflexivity|exact Hl].
  by rewrite occurs_app, Hname.
Qed.

Lemma room_name_no_minus r :
  occurs "-" ("Room " ++ str_nat r ++ " capacity") = false.
Proof.
  rewrite !occurs_app. unfold str_nat.
  by rewrite occurs_string_of_uint.
Qed.

Lemma read_capacities_no_minus count : forall r f cs f',
  read_capacities count r f = Ok (cs, f') ->
  exists pre, f = pre ++ f' /\ Forall (fun l => occurs "-" l = false) pre.
Proof.
  induction count as [|count IH]; intros r f cs f'; simpl.
  - intros [= _ <-]. by exists [].
  - destruct (read_attribute _ f) as [[c f1]|] eqn:E1; simpl; [|discriminate].
    destruct (read_capacities count (S r) f1) as [[cs1 f2]|] eqn:E2; simpl;
      [|discriminate].
    intros [= _ <-].
    apply read_attribute_no_minus in E1 as (l & -> & Hl).
    + apply IH in E2 as (pre & -> & Hpre).
      exists (l :: pre). split; [reflexivity | by constructor].
    + exact (room_name_no_minus r).
Qed.

Lemma read_registrations_no_minus f : forall regs,
  read_registrations f = Ok regs ->
  Forall (fun l => l <> EmptyString) f ->
  Forall (fun l => occurs "-" l = false) f.
Proof.
  induction f as [|l f IH]; intros regs; simpl; [constructor|].
  intros Hr Hall. inversion Hall as [|?? Hl Hf]; subst.
  destruct (String.eqb_spec l EmptyString) as [-> | _]; [by destruct Hl|].
  destruct (match_registration l) as [p|] eqn:E; [|discriminate].
  destruct (read_registrations f) as [ps|] eqn:Ef; simpl in Hr; [|discriminate].
  constructor; [|by eapply IH].
  by apply (match_registration_chars "-" l p).
Qed.

(** A file that is read to its end without a parse failure has no minus
    sign. *)
Lemma parse_file_no_minus f p :
  parse_file f = Ok p ->
  Forall (fun l => l <> EmptyString) f ->
  Forall (fun l => occurs "-" l = false) f.
Proof.
  unfold parse_file. intros Hp Hall.
  destruct (read_attribute _ f) as [[n1 f1]|] eqn:E1; simpl in Hp; [|discriminate].
  destruct (read_attribute _ f1) as [[n2 f2]|] eqn:E2; simpl in Hp; [|discriminate].
  destruct (read_attribute _ f2) as [[n3 f3]|] eqn:E3; simpl in Hp; [|discriminate].
  destruct (read_attribute _ f3) as [[n4 f4]|] eqn:E4; simpl in Hp; [|discriminate].
  destruct (read_capacities _ 0 f4) as [[caps f5]|] eqn:E5; simpl in Hp; [|discriminate].
  destruct (read_registrations f5) as [regs|] eqn:E6; simpl in Hp; [|discriminate].
  apply read_attribute_no_minus in E1 as (l1 & -> & H1); [|reflexivity].
  apply read_attribute_no_minus in E2 as (l2 & -> & H2); [|reflexivity].
  apply read_attribute_no_minus in E3 as (l3 & -> & H3); [|reflexivity].
  apply read_attribute_no_minus in E4 as (l4 & -> & H4); [|reflexivity].
  apply read_capacities_no_minus in E5 as (pre & -> & Hpre).
  do 4 (apply Forall_cons in Hall as [_ Hall]).
  apply Forall_app in Hall as [_ Hall].
  repeat (constructor; [assumption|]).
  apply Forall_app. split; [exact Hpre|].
  by eapply read_registrations_no_minus.
Qed.

(** A minus sign in a file makes the reader raise its exception. *)
Lemma minus_sign_raises f :
  Forall (fun l => l <> EmptyString) f ->
  (exists l, l ∈ f /\ occurs "-" l = true) ->
  exists msg, read_file f = Raise (Exception msg).
Proof.
  intros Hall (l & Hmem & Hl). unfold read_file.
  destruct (parse_file f) as [p|e] eqn:Hp; simpl.
  - pose proof (parse_file_no_minus f p Hp Hall) as Hno.
    rewrite Forall_forall in Hno. specialize (Hno l Hmem). congruence.
  - apply parse_file_raises in Hp as [msg ->]. by exists msg.
Qed.

(** ** Instances that [read_file] returns *)

Lemma read_file_well_formed f i : read_file f = Ok i -> well_formed i.
Proof.
  unfold read_file. destruct (parse_file f) as [p|] eqn:Hp; simpl; [|discriminate].
  destruct (parse_file_inv f p Hp) as (_ & Hrooms & _).
  by apply count_capacity_well_formed.
Qed.

(** ** The formulas that [solve] builds *)

Lemma room_capacity_inv i caps :
  room_capacity i = Ok caps -> caps = capacity_formulas i.
Proof.
  unfold room_capacity, capacity_formulas.
  destruct (mapM _ (range (number_of_exams i))) as [rows|] eqn:E; simpl; [|discriminate].
  intros [= <-]. f_equal.
  eapply mapM_Ok_inv; [|exact E].
  intros ex row Hex%elem_of_range. apply mapM_Ok_inv.
  intros rm a Hrm%elem_of_range.
  destruct (getitem (student_exam_capacity i) ex) as [count|] eqn:Ec; simpl; [|discriminate].
  destruct (getitem (room_capacities i) rm) as [cap|] eqn:Er; simpl; [|discriminate].
  intros [= <-]. unfold studentCount, capacity.
  apply getitem_total in Ec; [|lia]. apply getitem_total in Er; [|lia].
  by rewrite Ec, Er.
Qed.

Lemma room_capacity_well_formed i :
  well_formed i -> room_capacity i = Ok (capacity_formulas i).
Proof.
  intros [Hr He]. unfold room_capacity, capacity_formulas.
  erewrite mapM_Ok_intro; [reflexivity|].
  intros ex Hex%elem_of_range. simpl. apply mapM_Ok_intro.
  intros rm Hrm%elem_of_range. simpl.
  rewrite getitem_in_range by lia. simpl.
  rewrite getitem_in_range by lia. reflexivity.
Qed.

Lemma holds_capacity_formulas i m :
  holds (capacity_formulas i) m <->
  forall ex rm, is_exam i ex -> is_room i rm ->
                ExamRoom m ex = rm -> studentCount i ex <= capacity i rm.
Proof.
  unfold holds, capacity_formulas, capacity_formula.
  rewrite Forall_concat, Forall_fmap, Forall_forall. split.
  - intros Hall ex rm Hex Hrm Hroom.
    specialize (Hall ex (proj2 (elem_of_range _ _) Hex)). simpl in Hall.
    rewrite Forall_fmap, Forall_forall in Hall.
    specialize (Hall rm (proj2 (elem_of_range _ _) Hrm) Hroom).
    by apply Z.leb_le.
  - intros Hall ex Hex%elem_of_range. simpl.
    rewrite Forall_fmap, Forall_forall. intros rm Hrm%elem_of_range Hroom.
    apply Z.leb_le. by apply Hall.
Qed.

Lemma holds_range_defs i m :
  holds (range_defs i) m <->
  (forall x, Student_Range m x = in_range x (number_of_students i)) /\
  (forall x, Exam_Range m x = in_range x (number_of_exams i)) /\
  (forall x, TimeSlot_Range m x = in_range x (number_of_slots i)) /\
  (forall x, Room_Range m x = in_range x (number_of_rooms i)).
Proof.
  unfold holds, range_defs. rewrite !Forall_cons, Forall_nil.
  unfold student_range_def, exam_range_def, timeslot_range_def, room_range_def.
  tauto.
Qed.

Lemma holds_registration_facts i m :
  holds (registration_facts i) m <->
  forall e st, (e, st) ∈ exams_to_students i -> ExamStudent m e st = true.
Proof.
  unfold holds, registration_facts. rewrite Forall_fmap, Forall_forall. split.
  - intros Hall e st Hin. exact (Hall (e, st) Hin).
  - intros Hall [e st] Hin. simpl. by apply Hall.
Qed.

Lemma constraints_inv i s : constraints i = Ok s -> s = formulas i.
Proof.
  unfold constraints, formulas.
  destruct (room_capacity i) as [caps|] eqn:E; simpl; [|discriminate].
  apply room_capacity_inv in E as ->. by intros [= <-].
Qed.

Lemma constraints_well_formed i : well_formed i -> constraints i = Ok (formulas i).
Proof.
  intros Hwf. unfold constraints. by rewrite room_capacity_well_formed.
Qed.

Lemma holds_formulas i m :
  holds (formulas i) m <->
  holds (range_defs i) m /\ holds (registration_facts i) m /\ room_and_time m /\
  holds (capacity_formulas i) m /\ non_overlapping m.
Proof.
  unfold holds, formulas. rewrite !Forall_app, !Forall_cons, !Forall_nil. tauto.
Qed.

(** ** Models of the formulas and feasible assignments *)

Lemma apart_abs t1 t2 : apart t1 t2 <-> Z.abs (t1 - t2) > 1.
Proof. unfold apart. lia. Qed.

(** Every interpretation that satisfies the formulas assigns the exams
    feasibly. *)
Lemma model_feasible i m :
  holds (formulas i) m -> feasible i (ExamRoom m) (ExamTime m).
Proof.
  intros (Hr & Hreg & Hrt & Hcap & Hno)%holds_formulas.
  apply holds_range_defs in Hr as (Hst & Hex & Hts & Hrm).
  rewrite holds_registration_facts in Hreg.
  rewrite holds_capacity_formulas in Hcap.
  assert (Htot : forall e, is_exam i e ->
            is_room i (ExamRoom m e) /\ is_slot i (ExamTime m e)).
  { intros e He.
    destruct (Hrt e) as (room & timeslot & Hroom & Hslot & <- & <- & _).
    - rewrite Hex. by apply in_range_true.
    - rewrite Hrm in Hroom. rewrite Hts in Hslot.
      split; by apply in_range_true. }
  split.
  - exact Htot.
  - intros e He. apply (Hcap e); [assumption | by apply Htot | reflexivity].
  - intros e1 e2 He1 He2 Hne [Hsame_room Hsame_time].
    destruct (Hrt e1) as (room & timeslot & _ & _ & Ht & Hro & Hfree).
    { rewrite Hex. by apply in_range_true. }
    apply Hfree. exists e2. rewrite Hex.
    split; [by apply in_range_true|]. repeat split; congruence.
  - intros e1 e2 He1 He2 Hne (st & Hstu & Hin1 & Hin2).
    apply apart_abs. apply (Hno st e1 e2).
    + rewrite Hst, !Hex, !Hts.
      destruct (Htot e1 He1) as [_ ?], (Htot e2 He2) as [_ ?].
      repeat split; try (by apply in_range_true). assumption.
    + repeat split; by apply Hreg.
Qed.

(** Every feasible assignment is read by an interpretation that satisfies
    the formulas. *)
Lemma feasible_model i room time :
  feasible i room time -> holds (formulas i) (model_of i room time).
Proof.
  intros [Htot Hcap Hdb Hsep]. apply holds_formulas.
  split; [|split; [|split; [|split]]].
  - apply holds_range_defs. by repeat split.
  - apply holds_registration_facts. intros e st Hin. simpl.
    by apply bool_decide_eq_true.
  - intros exam Hex%in_range_true. simpl in *.
    destruct (Htot exam Hex) as [Hroom Hslot].
    exists (room exam), (time exam).
    repeat split; try (by apply in_range_true).
    intros (next_exam & Hnext%in_range_true & Hro & Hti & Hne).
    by apply (Hdb exam next_exam).
  - apply holds_capacity_formulas. intros ex rm Hex Hrm. simpl.
    intros <-. by apply Hcap.
  - unfold non_overlapping. simpl.
    intros st exam next_exam timeslot next_timeslot.
    intros (Hst%in_range_true & Hex%in_range_true & Hnx%in_range_true & _ & _ & Hne).
    intros (<- & <- & Hin1%bool_decide_eq_true & Hin2%bool_decide_eq_true).
    apply apart_abs. apply Hsep; try assumption. by exists st.
Qed.

(** ** What [solve] returns *)

Lemma timetable_inv i m tt :
  mapM (fun ex =>
          students_count ← getitem (student_exam_capacity i) ex;
          mret {| row_exam := ex; row_room := ExamRoom m ex;
                  row_slot := ExamTime m ex; row_students := students_count |})
       (range (number_of_exams i)) = Ok tt ->
  tt = timetable_of i (ExamRoom m) (ExamTime m).
Proof.
  apply mapM_Ok_inv. intros ex row Hex%elem_of_range.
  destruct (getitem (student_exam_capacity i) ex) as [c|] eqn:Ec; simpl; [|discriminate].
  intros [= <-]. apply getitem_total in Ec; [|lia].
  unfold studentCount. by rewrite Ec.
Qed.

Lemma solve_unfold z3 i s :
  constraints i = Ok s ->
  solve z3 i =
    match z3 s with
    | (sat, m) =>
        timetable ← mapM (fun ex =>
            students_count ← getitem (student_exam_capacity i) ex;
            mret {| row_exam := ex; row_room := ExamRoom m ex;
                    row_slot := ExamTime m ex; row_students := students_count |})
          (range (number_of_exams i));
        mret (Satisfied timetable (individual_of i m)
                (map fst (List.filter (fun p => (3 <? length (snd p))%nat)
                                      (individual_of i m))))
    | _ => mret Unsatisfied
    end.
Proof. intros Hs. unfold solve. rewrite Hs. reflexivity. Qed.

(** A report [Satisfied] comes from the answer [sat] and shows the model. *)
Lemma solve_Satisfied_inv z3 i tt ind many :
  solve z3 i = Ok (Satisfied tt ind many) ->
  exists s, constraints i = Ok s /\ fst (z3 s) = sat /\
            Satisfied tt ind many = satisfied_report i (snd (z3 s)).
Proof.
  intros Hsolve.
  destruct (constraints i) as [s|] eqn:Hs.
  2:{ unfold solve in Hsolve. rewrite Hs in Hsolve. discriminate. }
  exists s. split; [reflexivity|].
  rewrite (solve_unfold z3 i s Hs) in Hsolve.
  destruct (z3 s) as [[| |] m]; simpl in *; try discriminate.
  split; [reflexivity|].
  destruct (mapM _ (range (number_of_exams i))) as [tt'|] eqn:Et; simpl in *; [|discriminate].
  apply timetable_inv in Et as ->.
  injection Hsolve as <- <- <-. reflexivity.
Qed.

(** Without the answer [sat] the report is [Unsatisfied]. *)
Lemma solve_not_sat z3 i s :
  constraints i = Ok s -> fst (z3 s) <> sat -> solve z3 i = Ok Unsatisfied.
Proof.
  intros Hs Hne. rewrite (solve_unfold z3 i s Hs).
  destruct (z3 s) as [[| |] m]; simpl in *; try reflexivity. congruence.
Qed.

(** On a well-formed instance nothing raises. *)
Lemma solve_well_formed z3 i :
  well_formed i ->
  solve z3 i = Ok (match fst (z3 (formulas i)) with
                   | sat => satisfied_report i (snd (z3 (formulas i)))
                   | _ => Unsatisfied
                   end).
Proof.
  intros Hwf. rewrite (solve_unfold z3 i _ (constraints_well_formed i Hwf)).
  destruct (z3 (formulas i)) as [[| |] m]; simpl; try reflexivity.
  erewrite mapM_Ok_intro; [reflexivity|].
  intros ex Hex%elem_of_range. simpl.
  destruct Hwf as [_ He]. rewrite getitem_in_range by lia. reflexivity.
Qed.

Lemma solve_returns z3 i : well_formed i -> exists r, solve z3 i = Ok r.
Proof. intros Hwf. rewrite (solve_well_formed z3 i Hwf). eauto. Qed.

(** A sound solver that decides satisfiable formulas answers [sat]. *)
Lemma sound_decides_sat z3 s m :
  z3_sound z3 s -> z3_decides z3 s -> holds s m -> fst (z3 s) = sat.
Proof.
  intros [_ Hunsat] Hdec Hm.
  destruct (fst (z3 s)) eqn:E; [reflexivity | | congruence].
  exfalso. by apply (Hunsat eq_refl m).
Qed.

(** ** The exam timetable of a report *)

Lemma elem_of_timetable_of i room time r :
  r ∈ timetable_of i room time <->
  exists e, is_exam i e /\
            r = {| row_exam := e; row_room := room e; row_slot := time e;
                   row_students := studentCount i e |}.
Proof.
  unfold timetable_of. rewrite list_elem_of_fmap. split.
  - intros (e & -> & He%elem_of_range). by exists e.
  - intros (e & He & ->). exists e. split; [reflexivity | by apply elem_of_range].
Qed.

(** The timetable of a report [Satisfied] is the timetable of the model of
    a sound solver, and that model assigns the exams feasibly. *)
Lemma solve_Satisfied_feasible z3 i s tt ind many :
  constraints i = Ok s -> z3_sound z3 s ->
  solve z3 i = Ok (Satisfied tt ind many) ->
  tt = timetable_of i (ExamRoom (snd (z3 s))) (ExamTime (snd (z3 s))) /\
  feasible i (ExamRoom (snd (z3 s))) (ExamTime (snd (z3 s))).
Proof.
  intros Hs [Hmodel _] (s' & Hs' & Hsat & Hrep)%solve_Satisfied_inv.
  assert (s' = s) as -> by congruence. split.
  - unfold satisfied_report in Hrep. by injection Hrep.
  - apply model_feasible. rewrite <- (constraints_inv i s Hs). by apply Hmodel.
Qed.

(** ** The scenarios *)

Example read_three_slots : read_file three_slots_file = Ok three_slots.
Proof. vm_compute. reflexivity. Qed.

Lemma three_slots_well_formed : well_formed three_slots.
Proof. split; reflexivity. Qed.

Ltac exam_cases e H :=
  unfold is_exam in H; simpl in H;
  let H' := fresh in
  assert (H' : e = 0 \/ e = 1 \/ e = 2) by lia;
  destruct H' as [-> | [-> | ->]].

Lemma three_slots_feasible : feasible three_slots room0 spread.
Proof.
  split.
  - intros e He. unfold is_room, is_slot, room0, spread.
    exam_cases e He; simpl; lia.
  - intros e He. exam_cases e He; vm_compute; discriminate.
  - intros e1 e2 He1 He2 Hne [_ Ht].
    exam_cases e1 He1; exam_cases e2 He2; vm_compute in Ht; congruence.
  - intros e1 e2 He1 He2 Hne (st & _ & Hin1 & Hin2). simpl in Hin1, Hin2.
    rewrite !elem_of_cons, elem_of_nil in Hin1, Hin2. unfold spread.
    destruct Hin1 as [?|[?|[?|[]]]]; destruct Hin2 as [?|[?|[?|[]]]];
      simplify_eq; simpl; lia.
Qed.

Lemma z3_answers_sound m s : holds s m -> z3_sound (z3_answers sat m) s.
Proof. intros Hm. split; simpl; [by intros _ | discriminate]. Qed.

(** With three slots the exams of student 0 go to slots 0 and 2. *)
Example three_slots_satisfied z3 :
  z3_sound z3 (formulas three_slots) -> z3_decides z3 (formulas three_slots) ->
  exists tt ind many, solve z3 three_slots = Ok (Satisfied tt ind many).
Proof.
  intros Hsound Hdec. rewrite (solve_well_formed z3 _ three_slots_well_formed).
  rewrite (sound_decides_sat z3 _ _ Hsound Hdec
             (feasible_model _ _ _ three_slots_feasible)).
  unfold satisfied_report. eauto.
Qed.

(** What the report of the three-slot scenario shows for the model that
    spreads the exams. *)
Example three_slots_report :
  solve (z3_answers sat (model_of three_slots room0 spread)) three_slots
  = Ok (Satisfied
          [ {| row_exam := 0; row_room := 0; row_slot := 0; row_students := 1 |};
            {| row_exam := 1; row_room := 0; row_slot := 2; row_students := 1 |};
            {| row_exam := 2; row_room := 0; row_slot := 1; row_students := 1 |} ]
          [ (0, [(0, 0, 0); (1, 2, 0)]); (1, [(2, 1, 0)]) ]
          [ ]).
Proof. rewrite (solve_well_formed _ _ three_slots_well_formed). reflexivity. Qed.

(** With two slots they cannot be more than one slot apart. *)
Lemma two_slots_no_model m : ~ holds (formulas two_slots) m.
Proof.
  intros [Htot _ _ Hsep]%model_feasible.
  assert (H0 : is_exam two_slots 0) by (unfold is_exam; simpl; lia).
  assert (H1 : is_exam two_slots 1) by (unfold is_exam; simpl; lia).
  destruct (Htot 0 H0) as [_ Ht0], (Htot 1 H1) as [_ Ht1].
  unfold is_slot in *. simpl in *.
  assert (Hgap : Z.abs (ExamTime m 0 - ExamTime m 1) > 1).
  { apply Hsep; try assumption; [lia|].
    exists 0. unfold is_student. simpl.
    split; [lia|]. split; [left | right; left]. }
  lia.
Qed.

Example two_slots_unsatisfied z3 :
  z3_sound z3 (formulas two_slots) -> solve z3 two_slots = Ok Unsatisfied.
Proof.
  intros [Hmodel _].
  assert (Hwf : well_formed two_slots) by (split; reflexivity).
  apply (solve_not_sat z3 _ _ (constraints_well_formed _ Hwf)).
  intros Hsat. exact (two_slots_no_model _ (Hmodel Hsat)).
Qed.

(** ** C1: soundness *)

(** C1.  Whenever [solve] reports [Satisfied], with a solver that is sound
    on the formulas it was given, the timetable it prints is the timetable
    of an assignment that satisfies the four constraint families: every exam
    has its row with a room and a slot of the instance, the students of the
    exam fit in the room, no two exams have the same room and slot, and two
    exams that share a student are more than one slot apart. *)
Theorem solve_soundness z3 i tt ind many :
  (forall s, constraints i = Ok s -> z3_sound z3 s) ->
  solve z3 i = Ok (Satisfied tt ind many) ->
  exists room time, tt = timetable_of i room time /\ feasible i room time.
Proof.
  intros Hsound (s & Hs & Hsat & Hrep)%solve_Satisfied_inv.
  exists (ExamRoom (snd (z3 s))), (ExamTime (snd (z3 s))). split.
  - unfold satisfied_report in Hrep. by injection Hrep.
  - apply model_feasible. rewrite <- (constraints_inv i s Hs).
    by apply (Hsound s Hs).
Qed.

Lemma solve_soundness_witness :
  exists room time,
    timetable_of three_slots room0 spread = timetable_of three_slots room time /\
    feasible three_slots room time.
Proof.
  apply (solve_soundness (z3_answers sat (model_of three_slots room0 spread))
           three_slots _
           (individual_of three_slots (model_of three_slots room0 spread))
           [ ]).
  - intros s ->%constraints_inv. apply z3_answers_sound, feasible_model.
    exact three_slots_feasible.
  - rewrite (solve_well_formed _ _ three_slots_well_formed). reflexivity.
Defined.

(** ** C2: completeness *)

(** C2.  On a well-formed instance that has a feasible assignment, a sound
    solver that decides the formulas makes [solve] report [Satisfied], and
    never [Unsatisfied]. *)
Theorem solve_completeness z3 i room time :
  well_formed i ->
  (forall s, constraints i = Ok s -> z3_sound z3 s /\ z3_decides z3 s) ->
  feasible i room time ->
  exists tt ind many, solve z3 i = Ok (Satisfied tt ind many).
Proof.
  intros Hwf Hz3 Hfeas.
  destruct (Hz3 _ (constraints_well_formed i Hwf)) as [Hsound Hdec].
  rewrite (solve_well_formed z3 i Hwf).
  rewrite (sound_decides_sat z3 _ _ Hsound Hdec (feasible_model i room time Hfeas)).
  unfold satisfied_report. eauto.
Qed.

Lemma solve_completeness_witness :
  exists tt ind many,
    solve (z3_answers sat (model_of three_slots room0 spread)) three_slots
    = Ok (Satisfied tt ind many).
Proof.
  apply (solve_completeness _ three_slots room0 spread).
  - exact three_slots_well_formed.
  - intros s ->%constraints_inv. split.
    + apply z3_answers_sound, feasible_model. exact three_slots_feasible.
    + unfold z3_decides. simpl. discriminate.
  - exact three_slots_feasible.
Defined.

(** On a feasible instance a sound solver leaves one way to the report
    [Unsatisfied]: the answer [unknown]. *)
Lemma unsatisfied_on_feasible_is_unknown z3 i room time :
  well_formed i -> z3_sound z3 (formulas i) -> feasible i room time ->
  solve z3 i = Ok Unsatisfied -> fst (z3 (formulas i)) = unknown.
Proof.
  intros Hwf [_ Hunsat] Hfeas. rewrite (solve_well_formed z3 i Hwf).
  destruct (fst (z3 (formulas i))) eqn:E; [discriminate | | reflexivity].
  intros _. exfalso. exact (Hunsat eq_refl _ (feasible_model _ _ _ Hfeas)).
Qed.

(** ** C3: student separation *)

(** C3.  Two distinct exams that share a student are more than one slot
    apart in every timetable that [solve] prints; an interpretation that
    puts them at the same slot or at slots [t] and [t + 1] satisfies the
    formulas never; and an assignment that respects the three other families
    and puts every such pair at slots [t] and [t + 2] is read by an
    interpretation that satisfies them all. *)
Theorem separation_gap i s :
  constraints i = Ok s ->
  (forall z3 tt ind many,
     z3_sound z3 s -> solve z3 i = Ok (Satisfied tt ind many) ->
     forall r1 r2, r1 ∈ tt -> r2 ∈ tt -> row_exam r1 <> row_exam r2 ->
       share_student i (row_exam r1) (row_exam r2) ->
       Z.abs (row_slot r1 - row_slot r2) > 1) /\
  (forall m e1 e2 t,
     is_exam i e1 -> is_exam i e2 -> e1 <> e2 -> share_student i e1 e2 ->
     ExamTime m e1 = t -> ExamTime m e2 = t \/ ExamTime m e2 = t + 1 ->
     ~ holds s m) /\
  (forall room time,
     (forall e, is_exam i e -> is_room i (room e) /\ is_slot i (time e)) ->
     (forall e, is_exam i e -> studentCount i e <= capacity i (room e)) ->
     (forall e1 e2, is_exam i e1 -> is_exam i e2 -> e1 <> e2 ->
        ~ (room e1 = room e2 /\ time e1 = time e2)) ->
     (forall e1 e2, is_exam i e1 -> is_exam i e2 -> e1 <> e2 ->
        share_student i e1 e2 ->
        time e2 = time e1 + 2 \/ time e1 = time e2 + 2) ->
     holds s (model_of i room time)).
Proof.
  intros Hs. split; [|split].
  - intros z3 tt ind many Hsound Hsolve r1 r2 Hr1 Hr2 Hne Hshare.
    destruct (solve_Satisfied_feasible z3 i s tt ind many Hs Hsound Hsolve)
      as [-> [_ _ _ Hsep]].
    apply elem_of_timetable_of in Hr1 as (e1 & He1 & ->).
    apply elem_of_timetable_of in Hr2 as (e2 & He2 & ->).
    simpl in *. by apply Hsep.
  - intros m e1 e2 t He1 He2 Hne Hshare Ht1 Ht2 Hm.
    rewrite (constraints_inv i s Hs) in Hm.
    destruct (model_feasible i m Hm) as [_ _ _ Hsep].
    specialize (Hsep e1 e2 He1 He2 Hne Hshare). lia.
  - intros room time Htot Hcap Hdb Htwo.
    rewrite (constraints_inv i s Hs). apply feasible_model.
    split; try assumption.
    intros e1 e2 He1 He2 Hne Hshare.
    specialize (Htwo e1 e2 He1 He2 Hne Hshare). lia.
Qed.

Lemma separation_gap_witness :
  constraints three_slots = Ok (formulas three_slots) /\
  ((forall z3 tt ind many,
      z3_sound z3 (formulas three_slots) ->
      solve z3 three_slots = Ok (Satisfied tt ind many) ->
      forall r1 r2, r1 ∈ tt -> r2 ∈ tt -> row_exam r1 <> row_exam r2 ->
        share_student three_slots (row_exam r1) (row_exam r2) ->
        Z.abs (row_slot r1 - row_slot r2) > 1) /\
   (forall m e1 e2 t,
      is_exam three_slots e1 -> is_exam three_slots e2 -> e1 <> e2 ->
      share_student three_slots e1 e2 ->
      ExamTime m e1 = t -> ExamTime m e2 = t \/ ExamTime m e2 = t + 1 ->
      ~ holds (formulas three_slots) m) /\
   (forall room time,
      (forall e, is_exam three_slots e ->
         is_room three_slots (room e) /\ is_slot three_slots (time e)) ->
      (forall e, is_exam three_slots e ->
         studentCount three_slots e <= capacity three_slots (room e)) ->
      (forall e1 e2, is_exam three_slots e1 -> is_exam three_slots e2 -> e1 <> e2 ->
         ~ (room e1 = room e2 /\ time e1 = time e2)) ->
      (forall e1 e2, is_exam three_slots e1 -> is_exam three_slots e2 -> e1 <> e2 ->
         share_student three_slots e1 e2 ->
         time e2 = time e1 + 2 \/ time e1 = time e2 + 2) ->
      holds (formulas three_slots) (model_of three_slots room time))).
Proof.
  split.
  - apply constraints_well_formed, three_slots_well_formed.
  - apply (separation_gap three_slots (formulas three_slots)).
    apply constraints_well_formed, three_slots_well_formed.
Defined.

(** Constraint 4 speaks of the students in [Student_Range] only: two exams
    that share nothing but an id outside the students of the instance may
    sit at adjacent slots. *)
Lemma stray_pair_adjacent :
  holds (formulas stray_pair) (model_of stray_pair room0 (fun e => e)).
Proof.
  apply feasible_model.
  assert (Hex : forall e, is_exam stray_pair e -> e = 0 \/ e = 1)
    by (unfold is_exam; simpl; intros; lia).
  split.
  - intros e He. unfold is_room, is_slot, room0. simpl.
    unfold is_exam in He. simpl in He. lia.
  - intros e [-> | ->]%Hex; vm_compute; discriminate.
  - intros e1 e2 _ _ Hne [_ Ht]. congruence.
  - intros e1 e2 _ _ _ (st & Hst & Hin & _). exfalso.
    unfold is_student in Hst. simpl in Hst, Hin.
    rewrite !elem_of_cons, elem_of_nil in Hin.
    destruct Hin as [? | [? | []]]; simplify_eq; lia.
Qed.

(** ** C4: room capacity *)

(** C4.  Every row of a timetable that [solve] prints shows the student
    count of its exam, and that count is at most the capacity of the room of
    the row; an interpretation that puts an exam into a room with one seat
    too few satisfies the formulas never; and an assignment that respects
    the three other families is read by an interpretation that satisfies the
    formulas exactly when every exam has at most as many students as its
    room has seats, as many included. *)
Theorem capacity_boundary i s :
  constraints i = Ok s ->
  (forall z3 tt ind many,
     z3_sound z3 s -> solve z3 i = Ok (Satisfied tt ind many) ->
     forall r, r ∈ tt ->
       row_students r = studentCount i (row_exam r) /\
       row_students r <= capacity i (row_room r)) /\
  (forall m e r,
     is_exam i e -> studentCount i e = capacity i r + 1 -> ExamRoom m e = r ->
     ~ holds s m) /\
  (forall room time,
     (forall e, is_exam i e -> is_room i (room e) /\ is_slot i (time e)) ->
     (forall e1 e2, is_exam i e1 -> is_exam i e2 -> e1 <> e2 ->
        ~ (room e1 = room e2 /\ time e1 = time e2)) ->
     (forall e1 e2, is_exam i e1 -> is_exam i e2 -> e1 <> e2 ->
        share_student i e1 e2 -> Z.abs (time e1 - time e2) > 1) ->
     (holds s (model_of i room time) <->
      forall e, is_exam i e -> studentCount i e <= capacity i (room e))).
Proof.
  intros Hs. split; [|split].
  - intros z3 tt ind many Hsound Hsolve r Hr.
    destruct (solve_Satisfied_feasible z3 i s tt ind many Hs Hsound Hsolve)
      as [-> [_ Hcap _ _]].
    apply elem_of_timetable_of in Hr as (e & He & ->). simpl.
    split; [reflexivity | by apply Hcap].
  - intros m e r He Hover Hroom Hm.
    rewrite (constraints_inv i s Hs) in Hm.
    destruct (model_feasible i m Hm) as [_ Hcap _ _].
    specialize (Hcap e He). rewrite Hroom in Hcap. lia.
  - intros room time Htot Hdb Hsep. rewrite (constraints_inv i s Hs). split.
    + intros Hm. by destruct (model_feasible _ _ Hm) as [_ Hcap _ _].
    + intros Hcap. apply feasible_model. by split.
Qed.

Lemma capacity_boundary_witness :
  constraints three_slots = Ok (formulas three_slots) /\
  ((forall z3 tt ind many,
      z3_sound z3 (formulas three_slots) ->
      solve z3 three_slots = Ok (Satisfied tt ind many) ->
      forall r, r ∈ tt ->
        row_students r = studentCount three_slots (row_exam r) /\
        row_students r <= capacity three_slots (row_room r)) /\
   (forall m e r,
      is_exam three_slots e ->
      studentCount three_slots e = capacity three_slots r + 1 ->
      ExamRoom m e = r ->
      ~ holds (formulas three_slots) m) /\
   (forall room time,
      (forall e, is_exam three_slots e ->
         is_room three_slots (room e) /\ is_slot three_slots (time e)) ->
      (forall e1 e2, is_exam three_slots e1 -> is_exam three_slots e2 -> e1 <> e2 ->
         ~ (room e1 = room e2 /\ time e1 = time e2)) ->
      (forall e1 e2, is_exam three_slots e1 -> is_exam three_slots e2 -> e1 <> e2 ->
         share_student three_slots e1 e2 -> Z.abs (time e1 - time e2) > 1) ->
      (holds (formulas three_slots) (model_of three_slots room time) <->
       forall e, is_exam three_slots e ->
         studentCount three_slots e <= capacity three_slots (room e)))).
Proof.
  split.
  - apply constraints_well_formed, three_slots_well_formed.
  - apply (capacity_boundary three_slots (formulas three_slots)).
    apply constraints_well_formed, three_slots_well_formed.
Defined.

(** ** C5: the answer [unknown] *)

(** The answer [unknown] on the three-slot scenario, which has a feasible
    assignment, is reported as [Unsatisfied]. *)
Lemma unknown_reported_unsatisfied :
  let z3 := z3_answers unknown (model_of three_slots room0 spread) in
  constraints three_slots = Ok (formulas three_slots) /\
  fst (z3 (formulas three_slots)) = unknown /\
  solve z3 three_slots = Ok Unsatisfied.
Proof.
  simpl. split; [|split].
  - apply constraints_well_formed, three_slots_well_formed.
  - reflexivity.
  - by rewrite (solve_well_formed _ _ three_slots_well_formed).
Qed.

(** C5, as the code has it.  [solve] has two reports only: it reports
    [Unsatisfied] exactly when the answer of the solver is not [sat], so for
    [unknown] as for [unsat]. *)
Theorem unsatisfied_iff_not_sat z3 i s :
  constraints i = Ok s ->
  (solve z3 i = Ok Unsatisfied <-> fst (z3 s) <> sat).
Proof.
  intros Hs. split.
  - intros Hsolve Hsat. rewrite (solve_unfold z3 i s Hs) in Hsolve.
    destruct (z3 s) as [r m]. simpl in Hsat. subst r.
    destruct (mapM _ (range (number_of_exams i))); discriminate.
  - by apply solve_not_sat.
Qed.

Lemma unsatisfied_iff_not_sat_witness :
  solve (z3_answers unknown (model_of three_slots room0 spread)) three_slots
    = Ok Unsatisfied <->
  fst (z3_answers unknown (model_of three_slots room0 spread)
         (formulas three_slots)) <> sat.
Proof.
  apply unsatisfied_iff_not_sat.
  apply constraints_well_formed, three_slots_well_formed.
Defined.

(** ** C6: what [read_file] checks *)

Example negative_count_rejected :
  read_file ["Number of students: -2" ++ nl]%string
  = Raise (Exception ("Could not parse line Number of students: -2" ++ nl
                      ++ "; expected the Number of students attribute")%string).
Proof. vm_compute. reflexivity. Qed.

Example exam_out_of_range_rejected :
  read_file ["Number of students: 1" ++ nl; "Number of exams: 1" ++ nl;
             "Number of slots: 1" ++ nl; "Number of rooms: 1" ++ nl;
             "Room 0 capacity: 5" ++ nl; "1 0" ++ nl]%string
  = Raise IndexError.
Proof. vm_compute. reflexivity. Qed.

(** A registration whose student is outside the students of the instance is
    read without any failure, and [solve] then returns a report. *)
Lemma out_of_range_student_accepted :
  read_file stray_student_file = Ok stray_student /\
  (0, 7) ∈ exams_to_students stray_student /\
  ~ is_student stray_student 7 /\
  forall z3, exists r, solve z3 stray_student = Ok r.
Proof.
  split; [vm_compute; reflexivity|]. split; [left|].
  split; [unfold is_student; simpl; lia|].
  intros z3. apply solve_returns. split; reflexivity.
Qed.

(** C6, as the code has it.  The reader accepts natural numbers only: in a
    file (whose lines are not empty: [readline] returns the empty string at
    the end of the file only) a minus sign on any line, so any count,
    capacity or id written as negative, makes [read_file] raise its
    [Exception], and what is read holds natural numbers.  An exam id that
    is not below the number of exams stops [read_file] with Python's
    [IndexError]; there is no other check: when every exam id is below the
    number of exams, [read_file] returns the instance, whatever the student
    ids, with every registration counted for its exam, and [solve] returns
    a report on it. *)
Theorem read_file_validation f :
  (Forall (fun l => l <> EmptyString) f ->
   (exists l, l ∈ f /\ occurs "-" l = true) ->
   exists msg, read_file f = Raise (Exception msg)) /\
  forall p, parse_file f = Ok p ->
    natural_numbers p /\
    ((exists e st, (e, st) ∈ exams_to_students p /\ number_of_exams p <= e) ->
     read_file f = Raise IndexError) /\
    ((forall e st, (e, st) ∈ exams_to_students p -> e < number_of_exams p) ->
     exists cap,
       read_file f = Ok (set_student_exam_capacity p cap) /\
       well_formed (set_student_exam_capacity p cap) /\
       (forall e, 0 <= e < number_of_exams p ->
          cap !!! Z.to_nat e = registrations_of (exams_to_students p) e) /\
       forall z3, exists r, solve z3 (set_student_exam_capacity p cap) = Ok r).
Proof.
  split; [apply minus_sign_raises|].
  intros p Hp. destruct (parse_file_inv f p Hp) as (Hnat & Hrooms & _).
  assert (Hread : read_file f = count_capacity p).
  { unfold read_file. by rewrite Hp. }
  destruct Hnat as (Hns & Hne & Hnsl & Hnr & Hcaps & Hregs).
  split; [by repeat split|]. rewrite Hread. split.
  - intros (e & st & Hmem & Hbig). unfold count_capacity.
    rewrite count_students_index_error; [reflexivity|].
    exists e, st. split; [assumption|].
    rewrite length_replicate, py_index_nonneg by lia.
    destruct (Z.ltb_spec e (Z.of_nat (Z.to_nat (number_of_exams p)))); [lia | reflexivity].
  - intros Hsmall. unfold count_capacity.
    destruct (count_students_in_range (exams_to_students p)
                (replicate (Z.to_nat (number_of_exams p)) 0))
      as (cap & Hc & Hlen & Hval).
    { intros e st Hmem. rewrite length_replicate.
      rewrite Forall_forall in Hregs. specialize (Hregs _ Hmem). simpl in Hregs.
      specialize (Hsmall _ _ Hmem). lia. }
    rewrite length_replicate in Hlen.
    assert (Hwf : well_formed (set_student_exam_capacity p cap)) by (by split).
    exists cap. rewrite Hc. simpl.
    split; [reflexivity|]. split; [exact Hwf|]. split.
    + intros e He. rewrite Hval by lia.
      rewrite lookup_total_replicate_2 by lia. lia.
    + intros z3. by apply solve_returns.
Qed.

Lemma read_file_validation_witness :
  (exists msg, read_file negative_slots_file = Raise (Exception msg)) /\
  parse_file stray_student_file = Ok stray_student_parsed /\
  natural_numbers stray_student_parsed /\
  ((exists e st, (e, st) ∈ exams_to_students stray_student_parsed /\
                 number_of_exams stray_student_parsed <= e) ->
   read_file stray_student_file = Raise IndexError) /\
  ((forall e st, (e, st) ∈ exams_to_students stray_student_parsed ->
                 e < number_of_exams stray_student_parsed) ->
   exists cap,
     read_file stray_student_file
     = Ok (set_student_exam_capacity stray_student_parsed cap) /\
     well_formed (set_student_exam_capacity stray_student_parsed cap) /\
     (forall e, 0 <= e < number_of_exams stray_student_parsed ->
        cap !!! Z.to_nat e
        = registrations_of (exams_to_students stray_student_parsed) e) /\
     forall z3, exists r,
       solve z3 (set_student_exam_capacity stray_student_parsed cap) = Ok r).
Proof.
  split; [|split; [vm_compute; reflexivity|]].
  - apply (proj1 (read_file_validation negative_slots_file)).
    + unfold negative_slots_file. repeat constructor; discriminate.
    + exists ("Number of slots: -1" ++ nl)%string.
      split; [right; right; left | reflexivity].
  - apply (proj2 (read_file_validation stray_student_file) stray_student_parsed).
    vm_compute. reflexivity.
Defined.

(** ** C7: a registration listed twice *)

Example read_listed_once : read_file listed_once_file = Ok listed_once.
Proof. vm_compute. reflexivity. Qed.

Example read_listed_twice : read_file listed_twice_file = Ok listed_twice.
Proof. vm_compute. reflexivity. Qed.

Lemma listed_once_feasible : feasible listed_once room0 room0.
Proof.
  assert (Hex : forall e, is_exam listed_once e -> e = 0)
    by (unfold is_exam; simpl; intros; lia).
  split.
  - intros e He. unfold is_room, is_slot, room0. simpl. lia.
  - intros e ->%Hex. vm_compute. discriminate.
  - intros e1 e2 ->%Hex ->%Hex Hne. congruence.
  - intros e1 e2 ->%Hex ->%Hex Hne. congruence.
Qed.

Lemma listed_twice_no_model m : ~ holds (formulas listed_twice) m.
Proof.
  intros [Htot Hcap _ _]%model_feasible.
  assert (H0 : is_exam listed_twice 0) by (unfold is_exam; simpl; lia).
  specialize (Hcap 0 H0). destruct (Htot 0 H0) as [Hroom _].
  unfold is_room in Hroom. simpl in Hroom.
  replace (ExamRoom m 0) with 0 in Hcap by lia.
  vm_compute in Hcap. by apply Hcap.
Qed.

(** The registration listed twice is counted twice, and the report changes:
    every sound solver that decides the formulas reports [Satisfied] with
    the registration listed once and [Unsatisfied] with it listed twice. *)
Lemma duplicate_changes_report :
  read_file listed_once_file = Ok listed_once /\
  read_file listed_twice_file = Ok listed_twice /\
  studentCount listed_once 0 = 1 /\
  studentCount listed_twice 0 = 2 /\
  forall z3,
    z3_sound z3 (formulas listed_once) -> z3_decides z3 (formulas listed_once) ->
    z3_sound z3 (formulas listed_twice) ->
    (exists tt ind many, solve z3 listed_once = Ok (Satisfied tt ind many)) /\
    solve z3 listed_twice = Ok Unsatisfied.
Proof.
  split; [exact read_listed_once|]. split; [exact read_listed_twice|].
  split; [reflexivity|]. split; [reflexivity|].
  intros z3 Hsound1 Hdec1 [Hsat2 _].
  assert (Hwf1 : well_formed listed_once) by (split; reflexivity).
  assert (Hwf2 : well_formed listed_twice) by (split; reflexivity).
  split.
  - rewrite (solve_well_formed z3 _ Hwf1).
    rewrite (sound_decides_sat z3 _ _ Hsound1 Hdec1
               (feasible_model _ _ _ listed_once_feasible)).
    unfold satisfied_report. eauto.
  - apply (solve_not_sat z3 _ _ (constraints_well_formed _ Hwf2)).
    intros Hsat. exact (listed_twice_no_model _ (Hsat2 Hsat)).
Qed.

(** C7, as the code has it.  A registration that is already in the list,
    added once more anywhere in it, raises nothing in the counting loop nor
    in [solve], and leaves the facts [ExamStudent] and the exams that share
    a student as they were; but the line is counted: the student count of
    its exam grows by one, the other counts stay. *)
Theorem duplicate_registration p l1 l2 e st i :
  exams_to_students p = l1 ++ l2 ->
  (e, st) ∈ l1 ++ l2 ->
  0 <= e ->
  length (room_capacities p) = Z.to_nat (number_of_rooms p) ->
  count_capacity p = Ok i ->
  exists i',
    count_capacity (with_registrations p (l1 ++ (e, st) :: l2)) = Ok i' /\
    (forall z3, exists r, solve z3 i' = Ok r) /\
    studentCount i' e = studentCount i e + 1 /\
    (forall e', 0 <= e' -> e' <> e -> studentCount i' e' = studentCount i e') /\
    (forall m, holds (registration_facts i') m <-> holds (registration_facts i) m) /\
    (forall e1 e2, share_student i' e1 e2 <-> share_student i e1 e2).
Proof.
  intros Hregs Hmem He Hrooms (cap & Hc & -> & Hlen)%count_capacity_inv.
  rewrite Hregs in Hc.
  destruct (count_students_member _ _ _ e st Hc Hmem) as [k Hk].
  pose proof (count_students_insert l1 l2 e st _ _ k Hk Hc) as Hc'.
  assert (Hke : k = Z.to_nat e).
  { rewrite py_index_nonneg in Hk by assumption.
    destruct (e <? _); congruence. }
  assert (Hlt : (k < length cap)%nat).
  { rewrite py_index_nonneg, length_replicate in Hk by assumption.
    destruct (Z.ltb_spec e (Z.of_nat (Z.to_nat (number_of_exams p)))); [lia | discriminate]. }
  subst k.
  exists (set_student_exam_capacity (with_registrations p (l1 ++ (e, st) :: l2))
            (alter (fun x => x + 1) (Z.to_nat e) cap)).
  split; [unfold count_capacity; simpl; by rewrite Hc'|].
  split; [intros z3; apply solve_returns; split; simpl;
          [assumption | by rewrite length_alter]|].
  unfold studentCount. simpl.
  split; [by rewrite list_lookup_total_alter_eq|].
  split; [intros e' He' Hne; apply list_lookup_total_alter_ne; lia|].
  split.
  - intros m. rewrite !holds_registration_facts. simpl. rewrite Hregs.
    split; intros Hall e' st' Hin; apply Hall.
    + rewrite elem_of_app, elem_of_cons. rewrite elem_of_app in Hin. tauto.
    + rewrite elem_of_app, elem_of_cons in Hin.
      destruct Hin as [Hin | [[= -> ->] | Hin]]; [|assumption|];
        rewrite elem_of_app; tauto.
  - intros e1 e2. unfold share_student, is_student. simpl. rewrite Hregs.
    assert (Hiff : forall q, q ∈ l1 ++ (e, st) :: l2 <-> q ∈ l1 ++ l2).
    { intros q. rewrite !elem_of_app, elem_of_cons. split; [|tauto].
      intros [Hin | [-> | Hin]]; [tauto | by apply elem_of_app | tauto]. }
    split; intros (s0 & Hs0 & H1 & H2); exists s0;
      (split; [assumption|]); split; by apply Hiff.
Qed.

Lemma duplicate_registration_witness :
  exists i',
    count_capacity (with_registrations listed_once ([(0, 0)] ++ (0, 0) :: [])) = Ok i' /\
    (forall z3, exists r, solve z3 i' = Ok r) /\
    studentCount i' 0 = studentCount listed_once 0 + 1 /\
    (forall e', 0 <= e' -> e' <> 0 -> studentCount i' e' = studentCount listed_once e') /\
    (forall m, holds (registration_facts i') m <-> holds (registration_facts listed_once) m) /\
    (forall e1 e2, share_student i' e1 e2 <-> share_student listed_once e1 e2).
Proof.
  apply (duplicate_registration listed_once [(0, 0)] [] 0 0 listed_once).
  - reflexivity.
  - left.
  - lia.
  - reflexivity.
  - vm_compute. reflexivity.
Defined.

(** ** Two solvers on one instance *)

(** The verdict does not depend on the solver, as long as it is sound and
    decides the formulas. *)
Lemma verdict_independent_of_solver z3 z3' i :
  well_formed i ->
  z3_sound z3 (formulas i) -> z3_decides z3 (formulas i) ->
  z3_sound z3' (formulas i) -> z3_decides z3' (formulas i) ->
  reports_satisfied (solve z3 i) = reports_satisfied (solve z3' i).
Proof.
  intros Hwf [Hm Hu] Hd [Hm' Hu'] Hd'. rewrite !(solve_well_formed _ i Hwf).
  unfold z3_decides in Hd, Hd'.
  destruct (fst (z3 (formulas i))) eqn:E, (fst (z3' (formulas i))) eqn:E';
    try reflexivity; try congruence; exfalso.
  - exact (Hu' eq_refl _ (Hm eq_refl)).
  - exact (Hu eq_refl _ (Hm' eq_refl)).
Qed.

Lemma three_slots_feasible_back : feasible three_slots room0 spread_back.
Proof.
  split.
  - intros e He. unfold is_room, is_slot, room0, spread_back.
    exam_cases e He; simpl; lia.
  - intros e He. exam_cases e He; vm_compute; discriminate.
  - intros e1 e2 He1 He2 Hne [_ Ht].
    exam_cases e1 He1; exam_cases e2 He2; vm_compute in Ht; congruence.
  - intros e1 e2 He1 He2 Hne (st & _ & Hin1 & Hin2). simpl in Hin1, Hin2.
    rewrite !elem_of_cons, elem_of_nil in Hin1, Hin2. unfold spread_back.
    destruct Hin1 as [?|[?|[?|[]]]]; destruct Hin2 as [?|[?|[?|[]]]];
      simplify_eq; simpl; lia.
Qed.

(** The timetable is the one of the model that the solver returns: two sound
    solvers may print different timetables for the same instance. *)
Lemma timetable_depends_on_solver :
  let z3 := z3_answers sat (model_of three_slots room0 spread) in
  let z3' := z3_answers sat (model_of three_slots room0 spread_back) in
  z3_sound z3 (formulas three_slots) /\ z3_sound z3' (formulas three_slots) /\
  solve z3 three_slots <> solve z3' three_slots.
Proof.
  simpl. split; [|split].
  - apply z3_answers_sound, feasible_model, three_slots_feasible.
  - apply z3_answers_sound, feasible_model, three_slots_feasible_back.
  - rewrite !(solve_well_formed _ _ three_slots_well_formed). discriminate.
Qed.

(** ** C9: one room, one slot, two exams *)

Lemma pigeonhole_no_model i m :
  number_of_rooms i = 1 -> number_of_slots i = 1 -> number_of_exams i = 2 ->
  ~ holds (formulas i) m.
Proof.
  intros Hr Hs He [Htot _ Hdb _]%model_feasible.
  assert (H0 : is_exam i 0) by (unfold is_exam; lia).
  assert (H1 : is_exam i 1) by (unfold is_exam; lia).
  destruct (Htot 0 H0) as [Hr0 Ht0], (Htot 1 H1) as [Hr1 Ht1].
  unfold is_room, is_slot in *.
  apply (Hdb 0 1 H0 H1); lia.
Qed.

(** C9.  With one room, one slot and two exams, [solve] reports
    [Unsatisfied] for every sound solver, whatever the registrations (so
    also when the two exams have disjoint students): both exams need the
    only room at the only slot. *)
Theorem pigeonhole_unsatisfied z3 i :
  well_formed i ->
  number_of_rooms i = 1 -> number_of_slots i = 1 -> number_of_exams i = 2 ->
  (forall s, constraints i = Ok s -> z3_sound z3 s) ->
  solve z3 i = Ok Unsatisfied.
Proof.
  intros Hwf Hr Hs He Hsound.
  pose proof (constraints_well_formed i Hwf) as Hc.
  apply (solve_not_sat z3 i _ Hc). intros Hsat.
  destruct (Hsound _ Hc) as [Hmodel _].
  exact (pigeonhole_no_model i _ Hr Hs He (Hmodel Hsat)).
Qed.

Lemma pigeonhole_unsatisfied_witness :
  solve (z3_answers unsat (model_of pigeonhole room0 room0)) pigeonhole
  = Ok Unsatisfied.
Proof.
  apply pigeonhole_unsatisfied; try reflexivity.
  - split; reflexivity.
  - intros s ->%constraints_inv. split; simpl; [discriminate|].
    intros _ m. by apply pigeonhole_no_model.
Defined.

(** ** C10: no exam *)

Lemma feasible_no_exam i room time : number_of_exams i = 0 -> feasible i room time.
Proof. intros He. split; unfold is_exam; intros; lia. Qed.

(** C10.  Without exams, whatever the other counts and tables, a sound
    solver that decides the formulas makes [solve] report [Satisfied] with
    an empty exam timetable; nothing raises. *)
Theorem zero_exams_satisfied z3 i :
  number_of_exams i = 0 ->
  (forall s, constraints i = Ok s -> z3_sound z3 s /\ z3_decides z3 s) ->
  exists ind many, solve z3 i = Ok (Satisfied [] ind many).
Proof.
  intros He Hz3.
  assert (Hc : constraints i = Ok (formulas i)).
  { destruct (constraints i) as [s|] eqn:E.
    - by rewrite (constraints_inv i s E).
    - unfold constraints, room_capacity in E. rewrite He in E. discriminate. }
  destruct (Hz3 _ Hc) as [Hsound Hdec].
  pose proof (sound_decides_sat z3 _ _ Hsound Hdec
                (feasible_model i room0 room0 (feasible_no_exam i _ _ He))) as Hsat.
  rewrite (solve_unfold z3 i _ Hc).
  destruct (z3 (formulas i)) as [r m]. simpl in Hsat. subst r.
  rewrite He. simpl. eauto.
Qed.

Lemma zero_exams_satisfied_witness :
  exists ind many,
    solve (z3_answers sat (model_of no_exam room0 room0)) no_exam
    = Ok (Satisfied [] ind many).
Proof.
  apply zero_exams_satisfied; [reflexivity|].
  intros s ->%constraints_inv. split.
  - apply z3_answers_sound, feasible_model. by apply feasible_no_exam.
  - unfold z3_decides. simpl. discriminate.
Defined.

(** * Further properties *)

(** ** The decimal numbers of the reader *)

Lemma strip_prefix_app p s : strip_prefix p (p ++ s)%string = Some s.
Proof. induction p as [|c p IH]; simpl; [reflexivity|]. by rewrite Ascii.eqb_refl. Qed.

Lemma is_digit_not_space c : is_digit c = true -> is_space c = false.
Proof.
  unfold is_digit, is_space. intros H. apply not_true_is_false. revert H.
  rewrite orb_true_iff, !andb_true_iff, !Nat.leb_le. lia.
Qed.

Lemma read_digits_step c s acc :
  is_digit c = true ->
  read_digits (String c s) acc
  = read_digits s (10 * acc + Z.of_nat (nat_of_ascii c - 48)).
Proof. intros H. simpl. by rewrite H. Qed.

Lemma read_digits_uint d : forall rest acc,
  read_digits (NilEmpty.string_of_uint d ++ rest) (Z.of_nat acc)
  = read_digits rest (Z.of_nat (Nat.of_uint_acc d acc)).
Proof.
  induction d as [|d IH|d IH|d IH|d IH|d IH|d IH|d IH|d IH|d IH|d IH];
    intros rest acc; [reflexivity|..];
    cbn [NilEmpty.string_of_uint String.append Nat.of_uint_acc];
    rewrite read_digits_step by reflexivity;
    rewrite <- IH; f_equal; rewrite Nat.tail_mul_spec;
    match goal with
    | |- context [(nat_of_ascii ?c - 48)%nat] =>
        let v := eval vm_compute in (nat_of_ascii c - 48)%nat in
        change (nat_of_ascii c - 48)%nat with v
    end; lia.
Qed.

Lemma read_digits_stop c s acc :
  is_digit c = false -> read_digits (String c s) acc = (acc, String c s).
Proof. intros H. simpl. by rewrite H. Qed.

Lemma str_nat_digit n : exists c s, str_nat n = String c s /\ is_digit c = true.
Proof.
  unfold str_nat. destruct (Nat.to_uint n) as [|d|d|d|d|d|d|d|d|d|d] eqn:E;
    try (eexists _, _; split; reflexivity).
  exfalso. pose proof (Unsigned.of_to n) as Hn. rewrite E in Hn.
  subst n. discriminate E.
Qed.

Lemma match_number_str n c r :
  is_digit c = false ->
  match_number (str_nat n ++ String c r) = Some (Z.of_nat n, String c r).
Proof.
  intros Hc.
  assert (Hread : read_digits (str_nat n ++ String c r) 0 = (Z.of_nat n, String c r)).
  { unfold str_nat.
    rewrite (read_digits_uint (Nat.to_uint n) (String c r) 0
             : read_digits (_ ++ _) 0 = _).
    change (Nat.of_uint_acc (Nat.to_uint n) 0) with (Nat.of_uint (Nat.to_uint n)).
    rewrite Unsigned.of_to. by apply read_digits_stop. }
  destruct (str_nat_digit n) as (c0 & s0 & E & Hc0).
  unfold match_number. rewrite <- Hread. rewrite E. simpl. by rewrite Hc0.
Qed.

Lemma skip_spaces_str n s : skip_spaces (str_nat n ++ s) = (str_nat n ++ s)%string.
Proof.
  destruct (str_nat_digit n) as (c0 & s0 & -> & Hc0). simpl.
  by rewrite (is_digit_not_space c0 Hc0).
Qed.

Lemma match_attribute_line name n :
  0 <= n -> match_attribute name (attribute_line name n) = Some n.
Proof.
  intros Hn. unfold match_attribute, attribute_line, str_Z, nl.
  rewrite strip_prefix_app. cbn [mbind option_bind].
  change (skip_spaces (" " ++ ?s)) with (skip_spaces s).
  rewrite skip_spaces_str.
  rewrite match_number_str by reflexivity. cbn [mbind option_bind at_end].
  by rewrite Z2Nat.id.
Qed.

Lemma match_registration_line e st :
  0 <= e -> 0 <= st -> match_registration (registration_line (e, st)) = Some (e, st).
Proof.
  intros He Hst. unfold match_registration, registration_line, str_Z. simpl fst; simpl snd.
  rewrite skip_spaces_str.
  change (" " ++ str_nat (Z.to_nat st) ++ nl)%string
    with (String " " (str_nat (Z.to_nat st) ++ nl)).
  rewrite match_number_str by reflexivity. simpl.
  rewrite skip_spaces_str. unfold nl.
  rewrite match_number_str by reflexivity. simpl.
  by rewrite !Z2Nat.id.
Qed.

Lemma read_attribute_line name n f :
  0 <= n -> read_attribute name (attribute_line name n :: f) = Ok (n, f).
Proof.
  intros Hn. unfold read_attribute. simpl. by rewrite match_attribute_line.
Qed.

Lemma read_capacities_lines caps : forall r f,
  Forall (fun c => 0 <= c) caps ->
  read_capacities (length caps) r (capacity_lines r caps ++ f) = Ok (caps, f).
Proof.
  induction caps as [|c caps IH]; intros r f Hall; [reflexivity|].
  inversion Hall as [|?? Hc Hcaps]; subst.
  cbn [length read_capacities capacity_lines app].
  rewrite read_attribute_line by assumption. simpl.
  rewrite IH by assumption. reflexivity.
Qed.

Lemma registration_line_not_empty p : String.eqb (registration_line p) EmptyString = false.
Proof.
  unfold registration_line, str_Z.
  destruct (str_nat_digit (Z.to_nat (fst p))) as (c0 & s0 & -> & _). reflexivity.
Qed.

Lemma read_registrations_lines regs :
  Forall (fun p => 0 <= fst p /\ 0 <= snd p) regs ->
  read_registrations (map registration_line regs) = Ok regs.
Proof.
  induction regs as [|[e st] regs IH]; intros Hall; [reflexivity|].
  inversion Hall as [|?? [He Hst] Hregs]; subst. simpl in He, Hst.
  cbn [map read_registrations]. rewrite registration_line_not_empty.
  rewrite match_registration_line by assumption.
  rewrite IH by assumption. reflexivity.
Qed.

Lemma parse_instance_file i :
  natural_numbers i ->
  length (room_capacities i) = Z.to_nat (number_of_rooms i) ->
  parse_file (instance_file i) = Ok (set_student_exam_capacity i []).
Proof.
  intros (Hns & Hne & Hnsl & Hnr & Hcaps & Hregs) Hlen.
  unfold parse_file, instance_file. cbn [app].
  rewrite !read_attribute_line by assumption. simpl.
  rewrite read_attribute_line by assumption. simpl.
  rewrite read_attribute_line by assumption. simpl.
  rewrite read_attribute_line by assumption. simpl.
  rewrite <- Hlen, read_capacities_lines by assumption. simpl.
  rewrite read_registrations_lines by assumption. reflexivity.
Qed.

(** ** Reading a listed instance *)

Lemma count_capacity_set p cap :
  count_capacity (set_student_exam_capacity p cap) = count_capacity p.
Proof. reflexivity. Qed.

Lemma read_file_inv f i :
  read_file f = Ok i ->
  exists p cap, parse_file f = Ok p /\
    count_students (exams_to_students p)
      (replicate (Z.to_nat (number_of_exams p)) 0) = Ok cap /\
    i = set_student_exam_capacity p cap /\
    length cap = Z.to_nat (number_of_exams p).
Proof.
  unfold read_file. destruct (parse_file f) as [p|] eqn:Hp; simpl; [|discriminate].
  intros (cap & Hc & -> & Hlen)%count_capacity_inv. by exists p, cap.
Qed.

(** X1.  The file that lists an instance of natural numbers, with one
    capacity per room, is read as that instance with its counting loop run:
    [read_file] returns the instance with every registration counted, or
    [IndexError] when an exam id is too large. *)
Theorem read_instance_file i :
  natural_numbers i ->
  length (room_capacities i) = Z.to_nat (number_of_rooms i) ->
  read_file (instance_file i) = count_capacity i.
Proof.
  intros Hnat Hlen. unfold read_file.
  rewrite (parse_instance_file i Hnat Hlen). reflexivity.
Qed.

Lemma three_slots_natural : natural_numbers three_slots.
Proof. unfold natural_numbers. simpl. repeat split; try lia; repeat constructor; simpl; lia. Qed.

Lemma read_instance_file_witness :
  read_file (instance_file three_slots) = count_capacity three_slots.
Proof.
  apply read_instance_file; [exact three_slots_natural | reflexivity].
Defined.

(** X2.  An instance that [read_file] returned, listed in a file and read
    again, is returned unchanged. *)
Theorem read_file_again f i :
  read_file f = Ok i -> read_file (instance_file i) = Ok i.
Proof.
  intros (p & cap & Hp & Hc & -> & Hlen)%read_file_inv.
  destruct (parse_file_inv f p Hp) as (Hnat & Hrooms & _).
  unfold read_file. rewrite parse_instance_file; [|exact Hnat|exact Hrooms].
  simpl. unfold count_capacity. simpl. rewrite Hc. reflexivity.
Qed.

Lemma read_file_again_witness :
  read_file (instance_file three_slots) = Ok three_slots.
Proof. apply (read_file_again three_slots_file). vm_compute. reflexivity. Defined.

Lemma py_index_Some_lt len e k : py_index len e = Some k -> (k < len)%nat.
Proof.
  unfold py_index.
  destruct ((0 <=? e) && (e <? Z.of_nat len)) eqn:E1.
  - apply andb_true_iff in E1 as [H1%Z.leb_le H2%Z.ltb_lt]. intros [= <-]. lia.
  - destruct ((- Z.of_nat len <=? e) && (e <? 0)) eqn:E2; [|discriminate].
    apply andb_true_iff in E2 as [H1%Z.leb_le H2%Z.ltb_lt]. intros [= <-]. lia.
Qed.

(** X3.  Every instance that [read_file] returns has tables of the
    announced lengths, holds natural numbers only, names only exams below
    the number of exams in its registrations, and counts for each exam the
    lines that register a student for it. *)
Theorem read_file_invariant f i :
  read_file f = Ok i ->
  well_formed i /\ natural_numbers i /\
  (forall e st, (e, st) ∈ exams_to_students i -> is_exam i e) /\
  (forall e, is_exam i e ->
     studentCount i e = registrations_of (exams_to_students i) e).
Proof.
  intros (p & cap & Hp & Hc & -> & Hlen)%read_file_inv.
  destruct (parse_file_inv f p Hp) as (Hnat & Hrooms & _).
  assert (Hin : forall e st, (e, st) ∈ exams_to_students p ->
                  0 <= e < number_of_exams p).
  { intros e st Hmem.
    destruct (count_students_member _ _ _ e st Hc Hmem) as [k Hk].
    destruct Hnat as (_ & _ & _ & _ & _ & Hregs).
    rewrite Forall_forall in Hregs. specialize (Hregs _ Hmem). simpl in Hregs.
    apply py_index_Some_lt in Hk as Hlt. rewrite length_replicate in Hlt, Hk.
    rewrite py_index_nonneg in Hk by lia.
    destruct (Z.ltb_spec e (Z.of_nat (Z.to_nat (number_of_exams p)))); [lia | discriminate]. }
  split; [by split|]. split; [exact Hnat|]. split; [exact Hin|].
  intros e He. unfold is_exam in He. simpl in He. unfold studentCount. simpl.
  destruct (count_students_in_range (exams_to_students p)
              (replicate (Z.to_nat (number_of_exams p)) 0)) as (cap' & Hc' & _ & Hval).
  { intros e' st' Hmem. rewrite length_replicate. specialize (Hin _ _ Hmem). lia. }
  assert (cap' = cap) as -> by congruence.
  rewrite Hval by lia. rewrite lookup_total_replicate_2 by lia. lia.
Qed.

Lemma read_file_invariant_witness :
  well_formed three_slots /\ natural_numbers three_slots /\
  (forall e st, (e, st) ∈ exams_to_students three_slots -> is_exam three_slots e) /\
  (forall e, is_exam three_slots e ->
     studentCount three_slots e = registrations_of (exams_to_students three_slots) e).
Proof. apply (read_file_invariant three_slots_file). vm_compute. reflexivity. Defined.

Lemma total_alter_incr (l : list Z) : forall k,
  (k < length l)%nat -> total (alter (fun x => x + 1) k l) = total l + 1.
Proof.
  induction l as [|x l IH]; intros k Hk; [simpl in Hk; lia|].
  destruct k as [|k].
  - unfold total. simpl. lia.
  - change (x + total (alter (fun x => x + 1) k l) = x + total l + 1).
    rewrite IH by (simpl in Hk; lia). lia.
Qed.

Lemma count_students_total regs : forall cap cap',
  count_students regs cap = Ok cap' ->
  total cap' = total cap + Z.of_nat (length regs).
Proof.
  induction regs as [|[e0 st0] regs IH]; intros cap cap'; simpl.
  - intros [= <-]. lia.
  - unfold incr_item. destruct (py_index (length cap) e0) as [k|] eqn:Hk; simpl; [|discriminate].
    intros Hc. rewrite (IH _ _ Hc).
    rewrite total_alter_incr by (by eapply py_index_Some_lt). lia.
Qed.

Lemma total_replicate_0 n : total (replicate n 0) = 0.
Proof. unfold total. induction n as [|n IH]; simpl; lia. Qed.

(** X4.  The student counts of an instance that [read_file] returns add up
    to the number of registration lines. *)
Theorem read_file_total f i :
  read_file f = Ok i ->
  total (student_exam_capacity i) = Z.of_nat (length (exams_to_students i)).
Proof.
  intros (p & cap & Hp & Hc & -> & Hlen)%read_file_inv. simpl.
  rewrite (count_students_total _ _ _ Hc), total_replicate_0. lia.
Qed.

Lemma read_file_total_witness :
  total (student_exam_capacity three_slots)
  = Z.of_nat (length (exams_to_students three_slots)).
Proof. apply (read_file_total three_slots_file). vm_compute. reflexivity. Defined.

(** X5.  [read_file] raises [IndexError] exactly when the whole file was
    read without a parse failure and some registration names an exam that
    is not below the number of exams. *)
Theorem read_file_index_error f :
  read_file f = Raise IndexError <->
  exists p, parse_file f = Ok p /\
    exists e st, (e, st) ∈ exams_to_students p /\ number_of_exams p <= e.
Proof.
  split.
  - unfold read_file. destruct (parse_file f) as [p|e0] eqn:Hp; simpl.
    + intros Hcount. exists p. split; [reflexivity|].
      destruct (parse_file_inv f p Hp) as ((_ & Hne & _ & _ & _ & Hregs) & _ & _).
      destruct (decide (Exists (fun q : Z * Z => number_of_exams p <= fst q)
                          (exams_to_students p))) as [Hex | Hnone].
      * apply Exists_exists in Hex as ([e st] & Hmem & Hbig).
        exists e, st. split; [exact Hmem | exact Hbig].
      * exfalso. unfold count_capacity in Hcount.
        destruct (count_students_in_range (exams_to_students p)
                    (replicate (Z.to_nat (number_of_exams p)) 0)) as (cap & Hc & _).
        { intros e st Hmem. rewrite length_replicate.
          rewrite Forall_forall in Hregs. specialize (Hregs _ Hmem). simpl in Hregs.
          assert (~ number_of_exams p <= e); [|lia].
          intros Hbig. apply Hnone. apply Exists_exists.
          exists (e, st). split; [exact Hmem | exact Hbig]. }
        rewrite Hc in Hcount. discriminate.
    + intros [= ->]. apply parse_file_raises in Hp as [msg Hmsg]. discriminate.
  - intros (p & Hp & e & st & Hmem & Hbig).
    destruct (parse_file_inv f p Hp) as ((_ & Hne & _) & _ & _).
    unfold read_file. rewrite Hp. simpl. unfold count_capacity.
    rewrite count_students_index_error; [reflexivity|].
    exists e, st. split; [assumption|].
    rewrite length_replicate, py_index_nonneg by lia.
    destruct (Z.ltb_spec e (Z.of_nat (Z.to_nat (number_of_exams p)))); [lia | reflexivity].
Qed.

(** ** Every line is read *)

Lemma read_capacities_app count : forall r f cs f',
  read_capacities count r f = Ok (cs, f') ->
  exists pre, f = pre ++ f' /\ length pre = count.
Proof.
  induction count as [|count IH]; intros r f cs f'; simpl.
  - intros [= _ <-]. by exists [].
  - destruct (read_attribute _ f) as [[c f1]|] eqn:E1; simpl; [|discriminate].
    destruct (read_capacities count (S r) f1) as [[cs1 f2]|] eqn:E2; simpl; [|discriminate].
    intros [= _ <-].
    apply read_attribute_cons in E1 as (l & -> & _).
    apply IH in E2 as (pre & -> & Hlen).
    exists (l :: pre). split; [reflexivity | simpl; by f_equal].
Qed.

Lemma read_registrations_all f : forall regs,
  read_registrations f = Ok regs ->
  Forall (fun l => l <> EmptyString) f ->
  Forall2 (fun l p => match_registration l = Some p) f regs.
Proof.
  induction f as [|l f IH]; intros regs; simpl.
  - intros [= <-] _. constructor.
  - intros Hr Hall. inversion Hall as [|?? Hl Hf]; subst.
    destruct (String.eqb_spec l EmptyString) as [-> | _]; [by destruct Hl|].
    destruct (match_registration l) as [p|] eqn:E; [|discriminate].
    destruct (read_registrations f) as [ps|] eqn:Ef; simpl in Hr; [|discriminate].
    injection Hr as <-. constructor; [assumption | by apply IH].
Qed.

(** X6.  A file that [read_file] accepts is read to its end: after the four
    counts and one capacity line per room, every line is a registration,
    in the order of the list of registrations. *)
Theorem read_file_reads_every_line f i :
  read_file f = Ok i ->
  Forall (fun l => l <> EmptyString) f ->
  length f = (4 + Z.to_nat (number_of_rooms i) + length (exams_to_students i))%nat /\
  Forall2 (fun l p => match_registration l = Some p)
          (drop (4 + Z.to_nat (number_of_rooms i)) f) (exams_to_students i).
Proof.
  intros (p & cap & Hp & _ & -> & _)%read_file_inv Hall. simpl.
  unfold parse_file in Hp.
  destruct (read_attribute _ f) as [[n1 f1]|] eqn:E1; simpl in Hp; [|discriminate].
  destruct (read_attribute _ f1) as [[n2 f2]|] eqn:E2; simpl in Hp; [|discriminate].
  destruct (read_attribute _ f2) as [[n3 f3]|] eqn:E3; simpl in Hp; [|discriminate].
  destruct (read_attribute _ f3) as [[n4 f4]|] eqn:E4; simpl in Hp; [|discriminate].
  destruct (read_capacities _ 0 f4) as [[caps f5]|] eqn:E5; simpl in Hp; [|discriminate].
  destruct (read_registrations f5) as [regs|] eqn:E6; simpl in Hp; [|discriminate].
  injection Hp as <-. simpl.
  apply read_attribute_cons in E1 as (l1 & -> & _).
  apply read_attribute_cons in E2 as (l2 & -> & _).
  apply read_attribute_cons in E3 as (l3 & -> & _).
  apply read_attribute_cons in E4 as (l4 & -> & _).
  apply read_capacities_app in E5 as (pre & -> & Hpre).
  assert (Hf5 : Forall (fun l => l <> EmptyString) f5).
  { do 4 (apply Forall_cons in Hall as [_ Hall]). by apply Forall_app in Hall as [_ ?]. }
  pose proof (read_registrations_all f5 regs E6 Hf5) as Hregs.
  split.
  - simpl. rewrite length_app, Hpre, <- (Forall2_length _ _ _ Hregs). lia.
  - rewrite <- Hpre. cbn [drop skipn Nat.add]. by rewrite drop_app_length.
Qed.

Lemma read_file_reads_every_line_witness :
  length three_slots_file
  = (4 + Z.to_nat (number_of_rooms three_slots)
     + length (exams_to_students three_slots))%nat /\
  Forall2 (fun l p => match_registration l = Some p)
          (drop (4 + Z.to_nat (number_of_rooms three_slots)) three_slots_file)
          (exams_to_students three_slots).
Proof.
  apply read_file_reads_every_line.
  - vm_compute. reflexivity.
  - unfold three_slots_file. repeat constructor; discriminate.
Defined.

(** ** The main loop *)

Lemma read_then_solve z3 f i : read_file f = Ok i -> exists r, solve z3 i = Ok r.
Proof. intros Hr. apply solve_returns. by eapply read_file_well_formed. Qed.

Lemma main_app z3 fs1 : forall fs2,
  main z3 (fs1 ++ fs2)
  = match snd (main z3 fs1) with
    | None => (fst (main z3 fs1) ++ fst (main z3 fs2), snd (main z3 fs2))
    | Some e => main z3 fs1
    end.
Proof.
  induction fs1 as [|[name f] fs1 IH]; intros fs2.
  - simpl. by destruct (main z3 fs2).
  - cbn [app main]. destruct (read_file f) as [i|e]; [|reflexivity].
    destruct (solve z3 i) as [r|e]; [|reflexivity].
    rewrite IH. destruct (main z3 fs1) as [out [e|]]; simpl; [reflexivity|].
    by destruct (main z3 fs2).
Qed.

Lemma main_runs z3 files :
  (forall nf, nf ∈ files -> exists i, read_file (snd nf) = Ok i) ->
  exists runs,
    main z3 files = (printed_run runs, None) /\
    map fst runs = map fst files /\
    Forall2 (fun nf run => exists i, read_file (snd nf) = Ok i /\
                                     solve z3 i = Ok (snd run)) files runs.
Proof.
  induction files as [|[name f] files IH]; intros Hall.
  - exists []. repeat split. constructor.
  - destruct (Hall (name, f)) as [i Hi]; [left|]. simpl in Hi.
    destruct (read_then_solve z3 f i Hi) as [r Hr].
    destruct IH as (runs & Hmain & Hnames & Hruns).
    { intros nf Hin. apply Hall. by right. }
    exists ((name, r) :: runs). cbn [main]. rewrite Hi, Hr, Hmain.
    split; [reflexivity|]. split; [simpl; by f_equal|].
    constructor; [|assumption]. exists i. by split.
Qed.

(** X7.  When every file is read by [read_file], the run raises nothing and
    prints, file after file in the order of the files, the name of the file
    and the report of [solve] on the instance that was read from it. *)
Theorem main_all_read z3 files :
  (forall nf, nf ∈ files -> exists i, read_file (snd nf) = Ok i) ->
  exists runs,
    main z3 files = (printed_run runs, None) /\
    map fst runs = map fst files /\
    Forall2 (fun nf run => exists i, read_file (snd nf) = Ok i /\
                                     solve z3 i = Ok (snd run)) files runs.
Proof. apply main_runs. Qed.

Lemma main_all_read_witness :
  exists runs,
    main (z3_answers unknown (model_of three_slots room0 spread))
         [("a.txt"%string, three_slots_file)]
    = (printed_run runs, None) /\
    map fst runs = map fst [("a.txt"%string, three_slots_file)] /\
    Forall2 (fun nf run => exists i, read_file (snd nf) = Ok i /\
               solve (z3_answers unknown (model_of three_slots room0 spread)) i
               = Ok (snd run))
            [("a.txt"%string, three_slots_file)] runs.
Proof.
  apply main_all_read. intros nf Hin. apply list_elem_of_singleton in Hin as ->.
  exists three_slots. vm_compute. reflexivity.
Defined.

(** X8.  The first file that [read_file] rejects ends the run with the
    exception of [read_file]: what was printed for the files before it
    stays, nothing is printed for it, and the files after it are neither
    read nor solved. *)
Theorem main_stops_at_first_failure z3 fs1 name f fs2 e :
  (forall nf, nf ∈ fs1 -> exists i, read_file (snd nf) = Ok i) ->
  read_file f = Raise e ->
  main z3 (fs1 ++ (name, f) :: fs2) = (fst (main z3 fs1), Some e) /\
  snd (main z3 fs1) = None.
Proof.
  intros Hall Hf. destruct (main_runs z3 fs1 Hall) as (runs & Hmain & _).
  rewrite main_app, Hmain. cbn [fst snd main]. rewrite Hf.
  by rewrite app_nil_r.
Qed.

Lemma main_stops_at_first_failure_witness :
  main (z3_answers unknown (model_of three_slots room0 spread))
       ([("a.txt"%string, three_slots_file)]
        ++ ("b.txt"%string, []) :: [("c.txt"%string, three_slots_file)])
  = (fst (main (z3_answers unknown (model_of three_slots room0 spread))
               [("a.txt"%string, three_slots_file)]),
     Some (Exception "Could not parse line ; expected the Number of students attribute")) /\
  snd (main (z3_answers unknown (model_of three_slots room0 spread))
            [("a.txt"%string, three_slots_file)]) = None.
Proof.
  apply main_stops_at_first_failure.
  - intros nf Hin. apply list_elem_of_singleton in Hin as ->.
    exists three_slots. vm_compute. reflexivity.
  - vm_compute. reflexivity.
Defined.

(** ** The timetables of the students *)

Lemma elem_of_exams_for_student m i st e t r :
  (e, t, r) ∈ exams_for_student m i st <->
  (e, st) ∈ exams_to_students i /\ t = ExamTime m e /\ r = ExamRoom m e.
Proof.
  unfold exams_for_student. rewrite list_elem_of_fmap. split.
  - intros ([e0 st0] & [= -> -> ->] & Hin).
    apply list_elem_of_In, filter_In in Hin as [Hin Heq].
    apply Z.eqb_eq in Heq as ->. split; [by apply list_elem_of_In | by split].
  - intros (Hin & -> & ->). exists (e, st). split; [reflexivity|].
    apply list_elem_of_In, filter_In. split; [by apply list_elem_of_In|].
    by apply Z.eqb_eq.
Qed.

Lemma elem_of_individual_of i m st l :
  (st, l) ∈ individual_of i m <->
  is_student i st /\ l = exams_for_student m i st.
Proof.
  unfold individual_of. rewrite list_elem_of_fmap. split.
  - intros (st0 & [= -> ->] & Hin%elem_of_range). by split.
  - intros (Hst & ->). exists st. split; [reflexivity | by apply elem_of_range].
Qed.

Lemma length_exams_for_student m i st :
  length (exams_for_student m i st) = exams_of (exams_to_students i) st.
Proof.
  unfold exams_for_student, exams_of. rewrite length_map. f_equal.
  apply List.filter_ext. by intros [e0 st0].
Qed.

Lemma filter_pairs {A B} (P : A * B -> bool) (g : A -> B) l :
  map fst (List.filter P (map (fun x => (x, g x)) l))
  = List.filter (fun x => P (x, g x)) l.
Proof.
  induction l as [|x l IH]; simpl; [reflexivity|].
  destruct (P (x, g x)); simpl; by rewrite IH.
Qed.

(** X9.  The students of the warning of a report [Satisfied] are the
    students of the instance with more than three registration lines, in
    increasing order, whatever the model of the solver. *)
Theorem warning_students z3 i tt ind many :
  solve z3 i = Ok (Satisfied tt ind many) ->
  many = List.filter (fun st => (3 <? exams_of (exams_to_students i) st)%nat)
                     (range (number_of_students i)).
Proof.
  intros (s & _ & _ & Hrep)%solve_Satisfied_inv.
  unfold satisfied_report in Hrep. injection Hrep as _ _ ->.
  unfold individual_of. rewrite filter_pairs.
  apply List.filter_ext. intros st. simpl.
  by rewrite length_exams_for_student.
Qed.

Lemma warning_students_witness :
  ([ ] : list Z)
  = List.filter (fun st => (3 <? exams_of (exams_to_students three_slots) st)%nat)
                (range (number_of_students three_slots)).
Proof.
  apply (warning_students (z3_answers sat (model_of three_slots room0 spread))
           three_slots
           (timetable_of three_slots room0 spread)
           (individual_of three_slots (model_of three_slots room0 spread))).
  rewrite (solve_well_formed _ _ three_slots_well_formed). reflexivity.
Defined.

(** X10.  A report [Satisfied] shows one timetable per student of the
    instance, in increasing order of the students; the timetable of a
    student has one entry per registration line of that student, in the
    order of the lines, and every entry of an exam of the instance shows
    the slot and the room of the row of that exam in the exam timetable. *)
Theorem individual_timetables z3 i tt ind many :
  solve z3 i = Ok (Satisfied tt ind many) ->
  map fst ind = range (number_of_students i) /\
  forall st l, (st, l) ∈ ind ->
    map (fun x => fst (fst x)) l
    = map fst (List.filter (fun p => snd p =? st) (exams_to_students i)) /\
    forall e t r, (e, t, r) ∈ l -> is_exam i e ->
      {| row_exam := e; row_room := r; row_slot := t;
         row_students := studentCount i e |} ∈ tt.
Proof.
  intros (s & _ & _ & Hrep)%solve_Satisfied_inv.
  unfold satisfied_report in Hrep. injection Hrep as -> -> _.
  split.
  - unfold individual_of. rewrite map_map. simpl. apply map_id.
  - intros st l (Hst & ->)%elem_of_individual_of. split.
    + unfold exams_for_student. rewrite map_map.
      erewrite (List.filter_ext _ (fun p => snd p =? st)); [|by intros [e0 st0]].
      apply map_ext. by intros [e0 st0].
    + intros e t r (Hin & -> & ->)%elem_of_exams_for_student He.
      apply elem_of_timetable_of. by exists e.
Qed.

Lemma individual_timetables_witness :
  map fst (individual_of three_slots (model_of three_slots room0 spread))
  = range (number_of_students three_slots) /\
  forall st l,
    (st, l) ∈ individual_of three_slots (model_of three_slots room0 spread) ->
    map (fun x => fst (fst x)) l
    = map fst (List.filter (fun p => snd p =? st) (exams_to_students three_slots)) /\
    forall e t r, (e, t, r) ∈ l -> is_exam three_slots e ->
      {| row_exam := e; row_room := r; row_slot := t;
         row_students := studentCount three_slots e |}
      ∈ timetable_of three_slots room0 spread.
Proof.
  apply (individual_timetables (z3_answers sat (model_of three_slots room0 spread))
           three_slots _ _ [ ]).
  rewrite (solve_well_formed _ _ three_slots_well_formed). reflexivity.
Defined.

(** X11.  With a sound solver, in the timetable of every student of a
    report [Satisfied] two entries of different exams of the instance are
    more than one slot apart. *)
Theorem individual_timetables_apart z3 i s tt ind many :
  constraints i = Ok s -> z3_sound z3 s ->
  solve z3 i = Ok (Satisfied tt ind many) ->
  forall st l, (st, l) ∈ ind ->
  forall e1 t1 r1 e2 t2 r2,
    (e1, t1, r1) ∈ l -> (e2, t2, r2) ∈ l ->
    is_exam i e1 -> is_exam i e2 -> e1 <> e2 ->
    Z.abs (t1 - t2) > 1.
Proof.
  intros Hs Hsound Hsolve.
  destruct (solve_Satisfied_feasible z3 i s tt ind many Hs Hsound Hsolve)
    as [_ [_ _ _ Hsep]].
  apply solve_Satisfied_inv in Hsolve as (s' & Hs' & _ & Hrep).
  assert (s' = s) as -> by congruence.
  unfold satisfied_report in Hrep. injection Hrep as _ -> _.
  intros st l (Hst & ->)%elem_of_individual_of e1 t1 r1 e2 t2 r2.
  intros (Hin1 & -> & _)%elem_of_exams_for_student.
  intros (Hin2 & -> & _)%elem_of_exams_for_student He1 He2 Hne.
  apply Hsep; try assumption. by exists st.
Qed.

Lemma individual_timetables_apart_witness : Z.abs (0 - 2) > 1.
Proof.
  apply (individual_timetables_apart
           (z3_answers sat (model_of three_slots room0 spread))
           three_slots (formulas three_slots)
           (timetable_of three_slots room0 spread)
           (individual_of three_slots (model_of three_slots room0 spread)) [ ])
    with (st := 0) (l := [(0, 0, 0); (1, 2, 0)])
         (e1 := 0) (r1 := 0) (e2 := 1) (r2 := 0).
  - apply constraints_well_formed, three_slots_well_formed.
  - apply z3_answers_sound, feasible_model, three_slots_feasible.
  - rewrite (solve_well_formed _ _ three_slots_well_formed). reflexivity.
  - left.
  - left.
  - right. left.
  - unfold is_exam. simpl. lia.
  - unfold is_exam. simpl. lia.
  - lia.
Defined.

(** ** Instances without a timetable *)

(** Formulas without a model are reported [Unsatisfied] by every sound
    solver. *)
Lemma no_model_unsatisfied z3 i :
  well_formed i ->
  (forall s, constraints i = Ok s -> z3_sound z3 s) ->
  (forall m, ~ holds (formulas i) m) ->
  solve z3 i = Ok Unsatisfied.
Proof.
  intros Hwf Hsound Hnone.
  pose proof (constraints_well_formed i Hwf) as Hc.
  apply (solve_not_sat z3 i _ Hc). intros Hsat.
  destruct (Hsound _ Hc) as [Hmodel _]. exact (Hnone _ (Hmodel Hsat)).
Qed.

(** A feasible assignment sends the exams to different pairs of a room and
    a slot, so there are at most rooms times slots exams. *)
Lemma feasible_exams_bound i room time :
  feasible i room time ->
  0 <= number_of_rooms i -> 0 <= number_of_slots i ->
  number_of_exams i <= number_of_rooms i * number_of_slots i.
Proof.
  intros [Htot _ Hdb _] Hr Hs.
  pose (places := map (fun e => (room e, time e)) (range (number_of_exams i))).
  assert (Hnodup : NoDup places).
  { apply NoDup_fmap_2_strong; [|apply NoDup_seqZ].
    intros e1 e2 He1%elem_of_range He2%elem_of_range [= Hroom Htime].
    destruct (decide (e1 = e2)) as [|Hne]; [assumption|].
    by destruct (Hdb e1 e2 He1 He2 Hne). }
  assert (Hincl : incl places (list_prod (range (number_of_rooms i))
                                         (range (number_of_slots i)))).
  { intros [r t] Hin. apply list_elem_of_In, list_elem_of_fmap in Hin
      as (e & [= -> ->] & He%elem_of_range).
    destruct (Htot e He) as [Hroom Hslot].
    apply in_prod_iff. split; by apply list_elem_of_In, elem_of_range. }
  pose proof (NoDup_incl_length (proj1 (NoDup_ListNoDup _) Hnodup) Hincl) as Hlen.
  unfold places in Hlen.
  rewrite length_map, length_prod in Hlen. unfold range in Hlen.
  rewrite !length_seqZ in Hlen. nia.
Qed.

(** X12.  On a well-formed instance with more exams than pairs of a room
    and a slot, every sound solver makes [solve] report [Unsatisfied]. *)
Theorem too_many_exams_unsatisfied z3 i :
  well_formed i ->
  0 <= number_of_rooms i -> 0 <= number_of_slots i ->
  number_of_rooms i * number_of_slots i < number_of_exams i ->
  (forall s, constraints i = Ok s -> z3_sound z3 s) ->
  solve z3 i = Ok Unsatisfied.
Proof.
  intros Hwf Hr Hs Hmany Hsound. apply no_model_unsatisfied; try assumption.
  intros m Hm%model_feasible.
  pose proof (feasible_exams_bound i _ _ Hm Hr Hs). lia.
Qed.

Lemma too_many_exams_unsatisfied_witness :
  solve (z3_answers unknown (model_of pigeonhole room0 room0)) pigeonhole
  = Ok Unsatisfied.
Proof.
  apply too_many_exams_unsatisfied; try (simpl; lia).
  - split; reflexivity.
  - intros s _. split; simpl; discriminate.
Defined.

(** X13.  On a well-formed instance with an exam that has more students
    than any room has seats, every sound solver makes [solve] report
    [Unsatisfied]. *)
Theorem oversize_exam_unsatisfied z3 i e :
  well_formed i ->
  is_exam i e ->
  (forall r, is_room i r -> capacity i r < studentCount i e) ->
  (forall s, constraints i = Ok s -> z3_sound z3 s) ->
  solve z3 i = Ok Unsatisfied.
Proof.
  intros Hwf He Hsmall Hsound. apply no_model_unsatisfied; try assumption.
  intros m [Htot Hcap _ _]%model_feasible.
  destruct (Htot e He) as [Hroom _].
  specialize (Hcap e He). specialize (Hsmall _ Hroom). lia.
Qed.

Lemma oversize_exam_unsatisfied_witness :
  solve (z3_answers unknown (model_of listed_twice room0 room0)) listed_twice
  = Ok Unsatisfied.
Proof.
  apply (oversize_exam_unsatisfied _ listed_twice 0).
  - split; reflexivity.
  - unfold is_exam. simpl. lia.
  - intros r Hr. unfold is_room in Hr. simpl in Hr.
    assert (r = 0) as -> by lia. vm_compute. reflexivity.
  - intros s _. split; simpl; discriminate.
Defined.

(** X14.  On a well-formed instance with at most two slots and two exams
    that share a student, every sound solver makes [solve] report
    [Unsatisfied]: the two exams need three slots. *)
Theorem shared_student_needs_three_slots z3 i e1 e2 :
  well_formed i ->
  number_of_slots i <= 2 ->
  is_exam i e1 -> is_exam i e2 -> e1 <> e2 -> share_student i e1 e2 ->
  (forall s, constraints i = Ok s -> z3_sound z3 s) ->
  solve z3 i = Ok Unsatisfied.
Proof.
  intros Hwf Hslots He1 He2 Hne Hshare Hsound.
  apply no_model_unsatisfied; try assumption.
  intros m [Htot _ _ Hsep]%model_feasible.
  destruct (Htot e1 He1) as [_ Ht1], (Htot e2 He2) as [_ Ht2].
  specialize (Hsep e1 e2 He1 He2 Hne Hshare).
  unfold is_slot in *. lia.
Qed.

Lemma shared_student_needs_three_slots_witness :
  solve (z3_answers unknown (model_of two_slots room0 room0)) two_slots
  = Ok Unsatisfied.
Proof.
  apply (shared_student_needs_three_slots _ two_slots 0 1).
  - split; reflexivity.
  - simpl. lia.
  - unfold is_exam. simpl. lia.
  - unfold is_exam. simpl. lia.
  - lia.
  - exists 0. unfold is_student. simpl. split; [lia|].
    split; [left | right; left].
  - intros s _. split; simpl; discriminate.
Defined.

(** ** The order of the registrations *)

Lemma count_students_perm l l' :
  Permutation l l' -> forall cap, count_students l cap = count_students l' cap.
Proof.
  induction 1 as [|[e st] l l' _ IH|[e1 st1] [e2 st2] l|l l' l'' _ IH1 _ IH2];
    intros cap.
  - reflexivity.
  - simpl. destruct (incr_item cap e) as [cap1|]; simpl; [apply IH | reflexivity].
  - simpl. unfold incr_item.
    destruct (py_index (length cap) e1) as [k1|] eqn:E1,
             (py_index (length cap) e2) as [k2|] eqn:E2; simpl;
      rewrite ?length_alter, ?E1, ?E2; simpl; try reflexivity.
    by rewrite alter_incr_commute.
  - by rewrite IH1, IH2.
Qed.

(** X15.  The order of the registration lines does not matter for the
    counting loop nor for the formulas: with the registrations permuted, the
    loop ends with the same student counts, and the formulas of [solve] have
    the same models. *)
Theorem registration_order i regs' i1 :
  Permutation (exams_to_students i) regs' ->
  count_capacity i = Ok i1 ->
  exists i2,
    count_capacity (with_registrations i regs') = Ok i2 /\
    student_exam_capacity i2 = student_exam_capacity i1 /\
    forall m, holds (formulas i2) m <-> holds (formulas i1) m.
Proof.
  intros Hperm (cap & Hc & -> & _)%count_capacity_inv.
  exists (set_student_exam_capacity (with_registrations i regs') cap).
  split; [|split; [reflexivity|]].
  - unfold count_capacity. simpl.
    by rewrite <- (count_students_perm _ _ Hperm), Hc.
  - intros m. rewrite !holds_formulas.
    assert (Hreg : holds (registration_facts
                     (set_student_exam_capacity (with_registrations i regs') cap)) m
                   <-> holds (registration_facts (set_student_exam_capacity i cap)) m).
    { rewrite !holds_registration_facts. simpl.
      split; intros Hall e st Hin; apply Hall.
      - by rewrite <- Hperm.
      - by rewrite Hperm. }
    rewrite Hreg. reflexivity.
Qed.

Lemma registration_order_witness :
  exists i2,
    count_capacity (with_registrations three_slots [(2, 1); (0, 0); (1, 0)]) = Ok i2 /\
    student_exam_capacity i2 = student_exam_capacity three_slots /\
    forall m, holds (formulas i2) m <-> holds (formulas three_slots) m.
Proof.
  apply (registration_order three_slots [(2, 1); (0, 0); (1, 0)] three_slots).
  - apply Permutation_sym, (Permutation_cons_append [(0, 0); (1, 0)] (2, 1)).
  - vm_compute. reflexivity.
Defined.

(** ** More slots *)

Lemma feasible_more_slots i n room time :
  feasible i room time -> number_of_slots i <= n ->
  feasible (set_number_of_slots i n) room time.
Proof.
  intros [Htot Hcap Hdb Hsep] Hn. split; try assumption.
  intros e He. destruct (Htot e He) as [Hroom Hslot].
  split; [assumption|]. unfold is_slot in *. simpl. lia.
Qed.

(** X16.  More slots never lose a timetable: when [solve] reports
    [Satisfied] on a well-formed instance with a sound solver, it reports
    [Satisfied] on the same instance with a larger number of slots with
    every sound solver that decides the formulas. *)
Theorem more_slots_satisfied z3 z3' i n tt ind many :
  well_formed i ->
  z3_sound z3 (formulas i) ->
  solve z3 i = Ok (Satisfied tt ind many) ->
  number_of_slots i <= n ->
  z3_sound z3' (formulas (set_number_of_slots i n)) ->
  z3_decides z3' (formulas (set_number_of_slots i n)) ->
  exists tt' ind' many',
    solve z3' (set_number_of_slots i n) = Ok (Satisfied tt' ind' many').
Proof.
  intros Hwf Hsound Hsolve Hn Hsound' Hdec'.
  destruct (solve_Satisfied_feasible z3 i _ tt ind many
              (constraints_well_formed i Hwf) Hsound Hsolve) as [_ Hfeas].
  assert (Hwf' : well_formed (set_number_of_slots i n)) by exact Hwf.
  rewrite (solve_well_formed z3' _ Hwf').
  rewrite (sound_decides_sat z3' _ _ Hsound' Hdec'
             (feasible_model _ _ _ (feasible_more_slots i n _ _ Hfeas Hn))).
  unfold satisfied_report. eauto.
Qed.

Lemma more_slots_satisfied_witness :
  exists tt' ind' many',
    solve (z3_answers sat (model_of (set_number_of_slots three_slots 5) room0 spread))
          (set_number_of_slots three_slots 5)
    = Ok (Satisfied tt' ind' many').
Proof.
  apply (more_slots_satisfied
           (z3_answers sat (model_of three_slots room0 spread)) _
           three_slots 5
           (timetable_of three_slots room0 spread)
           (individual_of three_slots (model_of three_slots room0 spread)) [ ]).
  - exact three_slots_well_formed.
  - apply z3_answers_sound, feasible_model, three_slots_feasible.
  - rewrite (solve_well_formed _ _ three_slots_well_formed). reflexivity.
  - simpl. lia.
  - apply z3_answers_sound, feasible_model, feasible_more_slots;
      [exact three_slots_feasible | simpl; lia].
  - unfold z3_decides. simpl. discriminate.
Defined.

(** ** Tables that are too short *)

Lemma getitem_raises {A} (l : list A) k e : getitem l k = Raise e -> e = IndexError.
Proof.
  unfold getitem. destruct (py_index (length l) k) as [n|].
  - destruct (l !! n); [discriminate | by intros [= <-]].
  - by intros [= <-].
Qed.

Lemma getitem_out_of_range {A} (l : list A) k :
  Z.of_nat (length l) <= k -> getitem l k = Raise IndexError.
Proof.
  intros Hk. unfold getitem. rewrite py_index_nonneg by lia.
  destruct (Z.ltb_spec k (Z.of_nat (length l))); [lia | reflexivity].
Qed.

(** A loop whose body raises [e0] only, and does raise it for some item,
    raises [e0]. *)
Lemma mapM_raises {A B} (f : A -> result B) l e0 x :
  (forall y e, y ∈ l -> f y = Raise e -> e = e0) ->
  x ∈ l -> f x = Raise e0 ->
  mapM f l = Raise e0.
Proof.
  induction l as [|y l IH]; intros Honly Hin Hx; [inversion Hin|].
  simpl. destruct (f y) as [b|e] eqn:Ey; simpl.
  - rewrite IH; [reflexivity | | |assumption].
    + intros y' e' Hy'. apply Honly. by right.
    + apply elem_of_cons in Hin as [-> | Hin]; [congruence | assumption].
  - by rewrite (Honly y e (list_elem_of_here _ _) Ey).
Qed.

Lemma mapM_raises_inv {A B} (f : A -> result B) l e :
  mapM f l = Raise e -> exists y, y ∈ l /\ f y = Raise e.
Proof.
  induction l as [|y l IH]; simpl; [discriminate|].
  destruct (f y) as [b|e1] eqn:Ey; simpl.
  - destruct (mapM f l) as [k|e2] eqn:El; simpl; [discriminate|].
    intros [= <-]. destruct (IH eq_refl) as (y' & Hin & Hy').
    exists y'. split; [by right | assumption].
  - intros [= <-]. exists y. split; [left | assumption].
Qed.

Lemma capacity_row_raises i ex e :
  mapM (fun rm =>
          count ← getitem (student_exam_capacity i) ex;
          cap ← getitem (room_capacities i) rm;
          mret (capacity_formula ex rm (count <=? cap)))
       (range (number_of_rooms i)) = Raise e ->
  e = IndexError.
Proof.
  intros (rm & _ & Hrm)%mapM_raises_inv.
  destruct (getitem (student_exam_capacity i) ex) as [count|e1] eqn:E1; simpl in Hrm.
  - destruct (getitem (room_capacities i) rm) as [cap|e2] eqn:E2; simpl in Hrm;
      [discriminate|].
    injection Hrm as <-. by eapply getitem_raises.
  - injection Hrm as <-. by eapply getitem_raises.
Qed.

(** X17.  With at least one exam and one room, [solve] raises [IndexError]
    while it builds constraint 3, before the solver is called, when the
    table of student counts has fewer entries than there are exams or the
    table of capacities fewer than there are rooms. *)
Theorem solve_short_tables z3 i :
  0 < number_of_exams i -> 0 < number_of_rooms i ->
  Z.of_nat (length (student_exam_capacity i)) < number_of_exams i \/
  Z.of_nat (length (room_capacities i)) < number_of_rooms i ->
  solve z3 i = Raise IndexError.
Proof.
  intros He Hr Hshort.
  assert (Hrc : room_capacity i = Raise IndexError).
  { unfold room_capacity.
    destruct Hshort as [Hs | Hc].
    - rewrite (mapM_raises _ _ IndexError
                 (Z.of_nat (length (student_exam_capacity i)))); [reflexivity | | |].
      + intros y e _. apply capacity_row_raises.
      + apply elem_of_range. lia.
      + apply (mapM_raises _ _ IndexError 0).
        * intros rm e _ Hrm.
          rewrite (getitem_out_of_range (student_exam_capacity i)) in Hrm by lia.
          by injection Hrm as <-.
        * apply elem_of_range. lia.
        * by rewrite (getitem_out_of_range (student_exam_capacity i)) by lia.
    - rewrite (mapM_raises _ _ IndexError 0); [reflexivity | | |].
      + intros y e _. apply capacity_row_raises.
      + apply elem_of_range. lia.
      + assert (Hbody : forall rm e,
                  (count ← getitem (student_exam_capacity i) 0;
                   cap ← getitem (room_capacities i) rm;
                   mret (capacity_formula 0 rm (count <=? cap))) = Raise e ->
                  e = IndexError).
        { intros rm e.
          destruct (getitem (student_exam_capacity i) 0) as [count|e1] eqn:E1; simpl.
          - destruct (getitem (room_capacities i) rm) as [cap|e2] eqn:E2; simpl;
              [discriminate|].
            intros [= <-]. by eapply getitem_raises.
          - intros [= <-]. by eapply getitem_raises. }
        apply (mapM_raises _ _ IndexError (Z.of_nat (length (room_capacities i)))).
        * intros rm e _. apply Hbody.
        * apply elem_of_range. lia.
        * destruct (getitem (student_exam_capacity i) 0) as [count|e1] eqn:E1; simpl.
          -- by rewrite (getitem_out_of_range (room_capacities i)) by lia.
          -- by rewrite (getitem_raises _ _ _ E1). }
  unfold solve, constraints. rewrite Hrc. reflexivity.
Qed.

Lemma solve_short_tables_witness :
  solve (z3_answers sat (model_of stray_student room0 room0)) stray_student_parsed
  = Raise IndexError.
Proof.
  apply solve_short_tables; simpl; [lia | lia | left; lia].
Defined.

(** ** Enough slots and one large room *)

Lemma every_other_slot_feasible i r0 :
  is_room i r0 ->
  (forall e, is_exam i e -> studentCount i e <= capacity i r0) ->
  2 * number_of_exams i - 1 <= number_of_slots i ->
  feasible i (fun _ => r0) (fun e => 2 * e).
Proof.
  intros Hr0 Hfit Hslots. split.
  - intros e He. split; [assumption|]. unfold is_exam in He. unfold is_slot. lia.
  - intros e He. by apply Hfit.
  - intros e1 e2 _ _ Hne [_ Htime]. lia.
  - intros e1 e2 _ _ Hne _. lia.
Qed.

(** X18.  On a well-formed instance with a room that is large enough for
    every exam and with at least [2 * number_of_exams - 1] slots, a sound
    solver that decides the formulas makes [solve] report [Satisfied]: the
    exams fit in that room at every other slot. *)
Theorem one_room_enough_slots z3 i r0 :
  well_formed i ->
  is_room i r0 ->
  (forall e, is_exam i e -> studentCount i e <= capacity i r0) ->
  2 * number_of_exams i - 1 <= number_of_slots i ->
  (forall s, constraints i = Ok s -> z3_sound z3 s /\ z3_decides z3 s) ->
  exists tt ind many, solve z3 i = Ok (Satisfied tt ind many).
Proof.
  intros Hwf Hr0 Hfit Hslots Hz3.
  destruct (Hz3 _ (constraints_well_formed i Hwf)) as [Hsound Hdec].
  rewrite (solve_well_formed z3 i Hwf).
  rewrite (sound_decides_sat z3 _ _ Hsound Hdec
             (feasible_model _ _ _ (every_other_slot_feasible i r0 Hr0 Hfit Hslots))).
  unfold satisfied_report. eauto.
Qed.

Lemma one_room_enough_slots_witness :
  exists tt ind many,
    solve (z3_answers sat (model_of (set_number_of_slots three_slots 5)
                                    (fun _ => 0) (fun e => 2 * e)))
          (set_number_of_slots three_slots 5)
    = Ok (Satisfied tt ind many).
Proof.
  assert (Hfit : forall e, is_exam (set_number_of_slots three_slots 5) e ->
            studentCount (set_number_of_slots three_slots 5) e
            <= capacity (set_number_of_slots three_slots 5) 0).
  { intros e He. exam_cases e He; vm_compute; discriminate. }
  apply (one_room_enough_slots _ (set_number_of_slots three_slots 5) 0).
  - split; reflexivity.
  - unfold is_room. simpl. lia.
  - exact Hfit.
  - simpl. lia.
  - intros s ->%constraints_inv. split.
    + apply z3_answers_sound, feasible_model, every_other_slot_feasible;
        [unfold is_room; simpl; lia | exact Hfit | simpl; lia].
    + unfold z3_decides. simpl. discriminate.
Defined.
